(** * common-validation: runtime value validation with defaults

    A shallow embedding of [index.ts] (registry of named validators, the
    entry points [check] and [checkType], [ValidationError] messages and
    the value classifiers) together with the part of the JavaScript
    run-time the code observes: values, truthiness, string conversion,
    [instanceof], property lookup on the registry object, and IEEE-754
    numbers with [parseFloat] and [Number.prototype.toString].

    Modelling choices:
    - values are [undefined], [null], booleans, numbers, strings,
      functions (ordinary, arrow and bound ones) and objects (plain
      objects, arrays, class instances, the boxed [String], [Number] and
      [Boolean] objects and other built-ins); symbols, proxies, objects
      that customise [instanceof], and objects or functions whose
      [Symbol.toStringTag] moves them into or out of the function tags
      are left out, so conversion to a string is total;
    - [instanceof] on a bound function asks its target; a function with
      no [prototype] of its own (an arrow function, a method, a bound
      function) inherits none either, those whose [[Prototype]] is a
      class (a bound derived class, say) being left out;
    - a string is a sequence of code units below 256;
    - predicates, [warnIf] and default-producing functions are pure and
      total, as [validator] and the signature of [check] type them;
    - the module-level [validators] object and the "validation" log are
      the state, threaded through a state-and-exception monad. *)

From stdpp Require Import gmap strings list.
From Stdlib Require Import ZArith String Ascii DecimalString.
From Stdlib Require Import Floats.SpecFloat.

Local Open Scope string_scope.
Local Open Scope Z_scope.

(** ** JavaScript numbers

    A Number is an IEEE-754 binary64 value; [spec_float] is the kernel's
    own specification of these (one NaN, signed zeros and infinities,
    [m * 2^e] otherwise). *)

Module Number.

Definition prec : Z := 53.
Definition emax : Z := 1024.

Abbreviation number := spec_float.

Definition NaN : number := S754_nan.
Definition Infinity (neg : bool) : number := S754_infinity neg.

Definition isNaN (x : number) : bool :=
  match x with S754_nan => true | _ => false end.

(** The Number value for an integer (round to nearest, ties to even). *)
Definition of_Z (z : Z) : number := binary_normalize prec emax z 0 false.

(** [===] on Numbers: NaN differs from everything, [+0 === -0]. *)
Definition equal (x y : number) : bool := SFeqb x y.

Definition is_zero (x : number) : bool :=
  match x with S754_zero _ => true | _ => false end.

(** The Number value for the decimal [m * 10^e10] with [m > 0]: the
    quotient is located exactly before it is rounded once. *)
Definition round_decimal (neg : bool) (m : positive) (e10 : Z) : number :=
  if 0 <=? e10 then binary_round prec emax neg (m * Z.to_pos (10 ^ e10)) 0
  else
    let '(q, e, l) :=
      SFdiv_core_binary prec emax (Zpos m) 0 (10 ^ (- e10)) 0 in
    binary_round_aux prec emax neg q e l.

Definition of_decimal (neg : bool) (m : Z) (e10 : Z) : number :=
  match m with
  | Zpos p => round_decimal neg p e10
  | _ => S754_zero neg
  end.

(** *** [parseFloat]: leading white space is skipped, the longest prefix
    that is a StrDecimalLiteral is read (sign, [Infinity] or digits with
    an optional fraction and exponent), and its decimal value is rounded
    to the nearest Number; NaN when there is no such prefix. *)

Definition is_digit (c : ascii) : bool :=
  let n := Z.of_nat (nat_of_ascii c) in (48 <=? n) && (n <=? 57).

Definition digit_val (c : ascii) : Z := Z.of_nat (nat_of_ascii c) - 48.

(** WhiteSpace and LineTerminator code units below 256. *)
Definition is_whitespace (c : ascii) : bool :=
  let n := Z.of_nat (nat_of_ascii c) in
  ((9 <=? n) && (n <=? 13)) || (n =? 32) || (n =? 160).

Fixpoint trim_start (s : string) : string :=
  match s with
  | String c s' => if is_whitespace c then trim_start s' else s
  | EmptyString => s
  end.

(** Reads the digits at the front of [s]: the number read so far, how
    many digits were read, and the rest. *)
Fixpoint read_digits (acc cnt : Z) (s : string) : Z * Z * string :=
  match s with
  | String c s' =>
      if is_digit c then read_digits (10 * acc + digit_val c) (cnt + 1) s'
      else (acc, cnt, s)
  | EmptyString => (acc, cnt, s)
  end.

Definition starts_with (p s : string) : bool := String.prefix p s.

(** ExponentPart, when one is present at the front of [s]. *)
Definition read_exponent (s : string) : Z :=
  match s with
  | String c s' =>
      if (Ascii.eqb c "e" || Ascii.eqb c "E")%char then
        match s' with
        | String "-"%char s'' =>
            let '(ev, n, _) := read_digits 0 0 s'' in
            if 0 <? n then - ev else 0
        | String "+"%char s'' =>
            let '(ev, n, _) := read_digits 0 0 s'' in
            if 0 <? n then ev else 0
        | _ =>
            let '(ev, n, _) := read_digits 0 0 s' in
            if 0 <? n then ev else 0
        end
      else 0
  | EmptyString => 0
  end.

Definition parse_unsigned (neg : bool) (s : string) : number :=
  if starts_with "Infinity" s then Infinity neg
  else
    let '(ip, ni, r1) := read_digits 0 0 s in
    match r1 with
    | String "."%char r1' =>
        let '(m, nf, r2) := read_digits ip 0 r1' in
        if (ni =? 0) && (nf =? 0) then NaN
        else of_decimal neg m (read_exponent r2 - nf)
    | _ =>
        if ni =? 0 then NaN else of_decimal neg ip (read_exponent r1)
    end.

Definition parseFloat (s : string) : number :=
  match trim_start s with
  | String "-"%char s' => parse_unsigned true s'
  | String "+"%char s' => parse_unsigned false s'
  | s' => parse_unsigned false s'
  end.

(** *** [Number::toString], radix 10 *)

Definition ceil_div (a b : Z) : Z := - ((- a) / b).

(** Nearest integer to [a / b], ties to the even one. *)
Definition round_div (a b : Z) : Z :=
  let q := a / b in
  let r := a mod b in
  match 2 * r ?= b with
  | Lt => q
  | Gt => q + 1
  | Eq => if Z.even q then q else q + 1
  end.

(** The decimals [s * 10^q] that round to [m * 2^e]: bounds on [s], and
    the [s] closest to the number among them. The interval between the
    midpoints to both neighbours is written in units of [2^(e-2)]; its
    ends belong to it when [m] is even. *)
Definition candidates (m : positive) (e q : Z) : Z * Z * Z :=
  let lo := if (Zpos m =? 2 ^ (prec - 1)) && (3 - emax - prec <? e)
            then 4 * Zpos m - 1 else 4 * Zpos m - 2 in
  let hi := 4 * Zpos m + 2 in
  let scale := if 2 <=? e then 2 ^ (e - 2) else 1 in
  let den := if 2 <=? e then 1 else 2 ^ (2 - e) in
  let p10 := if 0 <=? q then 1 else 10 ^ (- q) in
  let a := if 0 <=? q then 10 ^ q * den else den in
  let l := lo * scale * p10 in
  let h := hi * scale * p10 in
  let t := 4 * Zpos m * scale * p10 in
  let incl := Z.even (Zpos m) in
  let smin := if incl then ceil_div l a else l / a + 1 in
  let smax := if incl then h / a else ceil_div h a - 1 in
  (smin, smax, Z.max smin (Z.min smax (round_div t a))).

(** The largest [q] that leaves a candidate gives the fewest digits. *)
Fixpoint shortest (fuel : nat) (m : positive) (e q : Z) : Z * Z :=
  let '(smin, smax, s) := candidates m e q in
  if (smin <=? smax) && (1 <=? smax) then (s, q)
  else
    match fuel with
    | O => (s, q)
    | S fuel' => shortest fuel' m e (q - 1)
    end.

(** A power of ten above [2^b], from [0.30102 < log10 2 < 0.30103]:
    no decimal [s * 10^q] with [s >= 1] and [q] at or above it is below
    [2^b]. *)
Definition magnitude_bound (b : Z) : Z :=
  (if 0 <=? b then b * 30103 / 100000 else b * 30102 / 100000) + 1.

Definition digits_of (s : Z) : string :=
  NilZero.string_of_uint (N.to_uint (Z.to_N s)).

Definition zeros (n : Z) : string :=
  string_of_list_ascii (repeat "0"%char (Z.to_nat n)).

Definition substring_from (n : Z) (s : string) : string :=
  String.substring (Z.to_nat n) (String.length s - Z.to_nat n) s.

Definition format (s q : Z) : string :=
  let ds := digits_of s in
  let k := Z.of_nat (String.length ds) in
  let n := k + q in
  if (k <=? n) && (n <=? 21) then ds +:+ zeros (n - k)
  else if (0 <? n) && (n <=? 21) then
    String.substring 0 (Z.to_nat n) ds +:+ "." +:+ substring_from n ds
  else if (-6 <? n) && (n <=? 0) then "0." +:+ zeros (- n) +:+ ds
  else
    let ex := (if 0 <=? n - 1 then "+" else "-")
              +:+ digits_of (Z.abs (n - 1)) in
    if k =? 1 then ds +:+ "e" +:+ ex
    else String.substring 0 1 ds +:+ "." +:+ substring_from 1 ds
         +:+ "e" +:+ ex.

Definition toString (x : number) : string :=
  match x with
  | S754_nan => "NaN"
  | S754_zero _ => "0"
  | S754_infinity neg => if neg then "-Infinity" else "Infinity"
  | S754_finite neg m e =>
      let q0 := magnitude_bound (Zpos (digits2_pos m) + e + 1) in
      let fuel := Z.to_nat (q0 - Z.min e 0) in
      let '(s, q) := shortest fuel m e q0 in
      (if neg then "-" else "") +:+ format s q
  end.

(** *** [Number::remainder], the [%] operator: exact, sign of the
    dividend. *)
Definition remainder (x y : number) : number :=
  match x, y with
  | S754_nan, _ | _, S754_nan => NaN
  | S754_infinity _, _ => NaN
  | _, S754_zero _ => NaN
  | _, S754_infinity _ => x
  | S754_zero _, _ => x
  | S754_finite sx mx ex, S754_finite _ my ey =>
      let e := Z.min ex ey in
      let r := Z.rem (Zpos mx * 2 ^ (ex - e)) (Zpos my * 2 ^ (ey - e)) in
      binary_normalize prec emax (if sx then - r else r) e sx
  end.

End Number.

(** ** JavaScript values

    Objects and functions are kept to what the code and lodash observe
    of them: identity, prototype chain, array-ness, the tag
    [Object.prototype.toString] reports, and string conversion.
    A prototype object is named by its place in the prototype forest,
    its own label followed by the path of its [[Prototype]]; the empty
    path is [null]. *)

Definition proto := list nat.

Definition Object_prototype : proto := [0%nat].
Definition Function_prototype : proto := [1%nat; 0%nat].
Definition Array_prototype : proto := [2%nat; 0%nat].

(** A function is an ordinary one, with its [prototype] property (label
    and [[Prototype]] of that object; arrow functions and methods have
    none, and a [prototype] that is no object counts as none), or a bound
    one: that has no [prototype], and [instanceof] passes the question on
    to its target, whose [prototype] is kept here. *)
Inductive func_kind :=
| Ordinary (prototype : option (nat * proto))
| Bound (target_prototype : option (nat * proto)).

Record func := {
  fn_id : nat;            (* tells apart equal-looking functions *)
  fn_name : string;       (* the [name] property *)
  fn_source : string;     (* Function.prototype.toString *)
  fn_proto : proto;       (* [[Prototype]] of the function *)
  fn_kind : func_kind;
}.

(** [f.prototype], when it is an object. *)
Definition own_prototype (f : func) : option (nat * proto) :=
  match fn_kind f with
  | Ordinary p => p
  | Bound _ => None
  end.

(** The prototype object [v instanceof f] looks for. *)
Definition instance_prototype (f : func) : option (nat * proto) :=
  match fn_kind f with
  | Ordinary p => p
  | Bound p => p
  end.

(** What lodash's [baseGetTag] reads off an object: "[object Object]",
    "[object String]", "[object Number]", "[object Boolean]", or any
    other tag that is not a function's ("[object Array]",
    "[object Date]", "[object Math]", ...). *)
Inductive tag :=
| TagObject
| TagString
| TagNumber
| TagBoolean
| TagOther.

Record object := {
  obj_id : nat;
  obj_proto : proto;        (* [[Prototype]] *)
  obj_array : bool;         (* Array.isArray *)
  obj_tag : tag;            (* baseGetTag *)
  obj_ctor_Object : bool;   (* the [[Prototype]] has an own [constructor]
                               that is a function, an instance of itself
                               and written as [Object] is *)
  obj_string : string;      (* what conversion to string gives *)
}.

Inductive val :=
| VUndefined
| VNull
| VBool (b : bool)
| VNum (n : Number.number)
| VStr (s : string)
| VFun (f : func)
| VObj (o : object).

#[global] Instance spec_float_eq_dec : EqDecision spec_float.
Proof. solve_decision. Defined.
#[global] Instance func_kind_eq_dec : EqDecision func_kind.
Proof. solve_decision. Defined.
#[global] Instance func_eq_dec : EqDecision func.
Proof. solve_decision. Defined.
#[global] Instance tag_eq_dec : EqDecision tag.
Proof. solve_decision. Defined.
#[global] Instance object_eq_dec : EqDecision object.
Proof. solve_decision. Defined.

(** ToBoolean. *)
Definition truthy (v : val) : bool :=
  match v with
  | VUndefined | VNull => false
  | VBool b => b
  | VNum n => negb (Number.is_zero n || Number.isNaN n)
  | VStr s => negb (String.eqb s "")
  | VFun _ | VObj _ => true
  end.

(** ToString, as a template literal applies it. *)
Definition to_string (v : val) : string :=
  match v with
  | VUndefined => "undefined"
  | VNull => "null"
  | VBool b => if b then "true" else "false"
  | VNum n => Number.toString n
  | VStr s => s
  | VFun f => fn_source f
  | VObj o => obj_string o
  end.

(** [typeof]. *)
Definition typeof (v : val) : string :=
  match v with
  | VUndefined => "undefined"
  | VNull => "object"
  | VBool _ => "boolean"
  | VNum _ => "number"
  | VStr _ => "string"
  | VFun _ => "function"
  | VObj _ => "object"
  end.

(** [===]. *)
Definition strict_equal (a b : val) : bool :=
  match a, b with
  | VUndefined, VUndefined | VNull, VNull => true
  | VBool x, VBool y => Bool.eqb x y
  | VNum x, VNum y => Number.equal x y
  | VStr x, VStr y => String.eqb x y
  | VFun f, VFun g => bool_decide (f = g)
  | VObj o, VObj p => bool_decide (o = p)
  | _, _ => false
  end.

(** *** Exceptions *)

Inductive exn :=
| ValidationError (message : string)
| TypeError.

Inductive outcome (A : Type) :=
| Return (a : A)
| Throw (e : exn).
Arguments Return {A} a.
Arguments Throw {A} e.

(** *** [instanceof] *)

(** The walk of OrdinaryHasInstance: [chain] is the [[Prototype]] of the
    object reached so far. *)
Fixpoint on_chain (P : proto) (chain : proto) : bool :=
  match chain with
  | [] => false
  | _ :: rest => if bool_decide (chain = P) then true else on_chain P rest
  end.

(** [[Prototype]] of a value that is an object. *)
Definition prototype_of (v : val) : option proto :=
  match v with
  | VObj o => Some (obj_proto o)
  | VFun f => Some (fn_proto f)
  | _ => None
  end.

(** [O instanceof C] for a left operand with [[Prototype]] [O], or none
    when it is a primitive. A right operand that is not callable, or
    that has no prototype object to look for when one is needed (its own
    [prototype], or its target's when it is bound), is a TypeError. *)
Definition has_instance (C : val) (O : option proto) : outcome bool :=
  match C with
  | VFun c =>
      match O with
      | None => Return false
      | Some chain =>
          match instance_prototype c with
          | Some (l, p) => Return (on_chain (l :: p) chain)
          | None => Throw TypeError
          end
      end
  | _ => Throw TypeError
  end.

Definition instanceof (v C : val) : outcome bool :=
  has_instance C (prototype_of v).

(** ** lodash predicates

    The predicates [index.ts] imports from lodash, on the values above.
    [isString], [isNumber] and [isBoolean] accept the primitive and the
    object that carries its tag ([isString] no array); [isPlainObject]
    wants the tag "[object Object]" and a [[Prototype]] that is [null] or
    has [Object] as its own [constructor]. *)

Module lodash.
Definition isFunction (v : val) : bool :=
  match v with VFun _ => true | _ => false end.
Definition isNil (v : val) : bool :=
  match v with VUndefined | VNull => true | _ => false end.
Definition isString (v : val) : bool :=
  match v with
  | VStr _ => true
  | VObj o => negb (obj_array o) && bool_decide (obj_tag o = TagString)
  | _ => false
  end.
Definition isNumber (v : val) : bool :=
  match v with
  | VNum _ => true
  | VObj o => bool_decide (obj_tag o = TagNumber)
  | _ => false
  end.
Definition isBoolean (v : val) : bool :=
  match v with
  | VBool _ => true
  | VObj o => bool_decide (obj_tag o = TagBoolean)
  | _ => false
  end.
Definition isArray (v : val) : bool :=
  match v with VObj o => obj_array o | _ => false end.
Definition isPlainObject (v : val) : bool :=
  match v with
  | VObj o =>
      bool_decide (obj_tag o = TagObject)
      && (bool_decide (obj_proto o = []) || obj_ctor_Object o)
  | _ => false
  end.
End lodash.

(** ** State: the validator registry and the logging sink *)

Definition validator := val -> bool.

Record validator_entry := {
  entry_name : string;          (* [name] *)
  entry_function : validator;   (* [function] *)
}.

(** The object [validators]: its own properties and its [[Prototype]].
    The object literal starts with [Object.prototype]; an assignment to
    the key [__proto__] goes through the setter inherited from there and
    installs the assigned record as the new [[Prototype]]. *)
Record registry := {
  own : gmap string validator_entry;
  parent : option validator_entry;   (* [None] is [Object.prototype] *)
}.

(** What every object that descends from [Object.prototype] inherits. *)
Definition Object_prototype_keys : list string :=
  [ "constructor"; "__defineGetter__"; "__defineSetter__"; "hasOwnProperty";
    "__lookupGetter__"; "__lookupSetter__"; "isPrototypeOf";
    "propertyIsEnumerable"; "toString"; "valueOf"; "__proto__";
    "toLocaleString" ].

(** [log.warn(message, ...context)]. *)
Record log_entry := {
  log_message : string;
  log_context : list val;
}.

Record world := {
  validators : registry;
  log : list log_entry;
}.

(** Computations that read and write the world and may throw. *)
Definition M (A : Type) : Type := world -> outcome A * world.

#[global] Instance M_ret : MRet M := fun A a w => (Return a, w).
#[global] Instance M_bind : MBind M := fun A B k m w =>
  match m w with
  | (Return a, w') => k a w'
  | (Throw e, w') => (Throw e, w')
  end.

Definition throw {A} (e : exn) : M A := fun w => (Throw e, w).

Definition lift {A} (o : outcome A) : M A := fun w => (o, w).

Definition get_validators : M registry := fun w => (Return (validators w), w).

Definition put_validators (r : registry) : M unit :=
  fun w => (Return tt, {| validators := r; log := log w |}).

Definition log_warn (message : string) (context : list val) : M unit :=
  fun w =>
    (Return tt,
     {| validators := validators w;
        log := log w ++ [ {| log_message := message;
                              log_context := context |} ] |}).

(** [type in validators]: own and inherited properties alike. *)
Definition has_property (r : registry) (type : string) : bool :=
  bool_decide (is_Some (own r !! type))
  || match parent r with
     | Some _ => bool_decide (type ∈ ["name"; "function"])
     | None => false
     end
  || bool_decide (type ∈ Object_prototype_keys).

(** [validators[type].function]. Only the records stored by this module
    have a [function]; on whatever else the lookup reaches (a built-in of
    [Object.prototype], or the name or predicate of a record installed as
    [[Prototype]]) the property is [undefined]. *)
Definition get_function (r : registry) (type : string) : option validator :=
  match own r !! type with
  | Some e => Some (entry_function e)
  | None =>
      if String.eqb type "__proto__" then entry_function <$> parent r
      else None
  end.

(** [validators[type] = entry]. *)
Definition set_property (r : registry) (type : string) (e : validator_entry)
  : registry :=
  if String.eqb type "__proto__" && bool_decide (own r !! type = None)
  then {| own := own r; parent := Some e |}
  else {| own := <[type := e]> (own r); parent := parent r |}.

(** [validators[type]], when it is one of this module's records. *)
Definition get_entry (r : registry) (type : string) : option validator_entry :=
  match own r !! type with
  | Some e => Some e
  | None => if String.eqb type "__proto__" then parent r else None
  end.

(** ** The module *)

Definition optional (name : option string) : val :=
  match name with Some n => VStr n | None => VUndefined end.

Definition namePrefix (name : option string) : string :=
  if negb (truthy (optional name)) then ""
  else to_string (optional name) +:+ ": ".

Definition valueType (value : val) : val :=
  match value with
  | VFun f => VStr (fn_name f)
  | _ => value
  end.

Definition getMessage (value : val) (expectedType : string)
  (name : option string) : string :=
  namePrefix name +:+ "Expected " +:+ expectedType +:+ ", "
  +:+ to_string (valueType value) +:+ " given.".

(** [new ValidationError(value, expectedType, name)]. *)
Definition new_ValidationError (value : val) (expectedType : string)
  (name : option string) : exn :=
  ValidationError (getMessage value expectedType name).

Definition setValidator (type : string) (validator : validator)
  (name : option string) : M unit :=
  let name := match name with None => type | Some n => n end in
  r ← get_validators;
  put_validators
    (set_property r type {| entry_name := name; entry_function := validator |}).

Definition isClass (variable : val) : bool := lodash.isFunction variable.

Definition isPrimitive (value : val) : bool :=
  lodash.isString value || lodash.isNumber value || lodash.isBoolean value.

Definition isAlphanumeric (value : val) : bool :=
  negb (Number.isNaN (Number.parseFloat (to_string value)))
  || lodash.isString value.

Definition parseNumberStrict (value : val) : option Number.number :=
  match value with
  | VNum n => Some n
  | VStr s =>
      let asNumber := Number.parseFloat s in
      if Number.isNaN asNumber then None
      else if String.eqb (Number.toString asNumber) s then Some asNumber
      else None
  | _ => None
  end.

(** [value.prototype], as the left operand of [instanceof]. *)
Definition prototype_property (value : val) : option proto :=
  match value with
  | VFun f => snd <$> own_prototype f
  | _ => None
  end.

Definition isSubClass (value Parent : val) (includeIdentity : option bool)
  : outcome bool :=
  let includeIdentity := default true includeIdentity in
  if negb (isClass value) then Return false
  else
    match has_instance Parent (prototype_property value) with
    | Return b => Return (b || (includeIdentity && strict_equal value Parent))
    | Throw e => Throw e
    end.

Definition subClass (Parent : val) (includeIdentity : option bool)
  : val -> outcome bool :=
  fun value => isSubClass value Parent includeIdentity.

Definition instanceOf (Class : val) : val -> outcome bool :=
  fun value => instanceof value Class.

(** The registry the module starts with. *)
Definition initial_validators : registry :=
  {| own := list_to_map
       [ ("alphanumeric",
           {| entry_name := "alphanumeric"; entry_function := isAlphanumeric |});
         ("array",
           {| entry_name := "array"; entry_function := lodash.isArray |});
         ("boolean",
           {| entry_name := "boolean"; entry_function := lodash.isBoolean |});
         ("function",
           {| entry_name := "function"; entry_function := lodash.isFunction |});
         ("number",
           {| entry_name := "number"; entry_function := lodash.isNumber |});
         ("object",
           {| entry_name := "object"; entry_function := lodash.isPlainObject |});
         ("string",
           {| entry_name := "string"; entry_function := lodash.isString |}) ];
     parent := None |}.

Definition initial_world : world :=
  {| validators := initial_validators; log := [] |}.

(** [{ defaultValue, warnIf }]; a property left out reads [undefined]. *)
Record options := {
  defaultValue : val;
  warnIf : option (val -> bool);
}.

Section Callbacks.

(** What calling a function object returns. Callbacks are taken to be
    pure, as the module's own types and documentation have them. *)
Variable call : func -> val -> val.

Definition check (value : val) (validator : val -> bool) (expected : string)
  (name : option string) (options : option options) : M val :=
  let valid := validator value in
  if valid then mret value
  else
    let defaultValue := from_option defaultValue VUndefined options in
    if truthy defaultValue then
      let defaultValue :=
        match defaultValue with
        | VFun f => call f value
        | _ => defaultValue
        end in
      let shouldWarn :=
        match options ≫= warnIf with
        | Some w => w
        | None => fun x => negb (lodash.isNil x)
        end in
      (if shouldWarn value
       then log_warn (getMessage value expected name) []
       else mret tt) ;;
      mret defaultValue
    else throw (new_ValidationError value expected name).

(** The tail of [checkType], from "All good, just return value" on. *)
Definition checkType_finish (value type : val) (name : option string)
  (defaultValue : val) (warnIf : val -> bool)
  (valid : bool) (expectedType : string) : M val :=
  if valid then mret value
  else if strict_equal defaultValue VUndefined
  then throw (new_ValidationError value expectedType name)
  else
    let defaultValue :=
      match defaultValue with
      | VFun f => call f value
      | _ => defaultValue
      end in
    (if warnIf value
     then log_warn (namePrefix name +:+ "Expected " +:+ to_string type +:+ ", "
                    +:+ to_string (valueType value)
                    +:+ " given. Using default:") [defaultValue]
     else mret tt) ;;
    mret defaultValue.

(** [isClass(type)] holds of the functions, whose [name] is then read;
    a [type] that [_.isString] accepts, the string or a String object, is
    used as a property key, that is, converted to a string. *)
Definition checkType (value type : val) (name : option string)
  (defaultValue : val) (warnIf : option (val -> bool)) : M val :=
  let warnIf := default (fun x => negb (lodash.isNil x)) warnIf in
  let finish := checkType_finish value type name defaultValue warnIf in
  match type with
  | VFun c =>
      valid ← lift (instanceof value type);
      finish valid ("instance of " +:+ fn_name c)
  | _ =>
      if lodash.isString type then
        let t := to_string type in
        r ← get_validators;
        if negb (has_property r t) then mret (VBool false)
        else
          match get_function r t with
          | Some validate => finish (validate value) t
          | None => throw TypeError
          end
      else finish false (to_string type)
  end.

End Callbacks.

(** ** Vocabulary of the statements *)

(** The default as it is handed back: called with the value when it is a
    function, itself otherwise. *)
Definition resolved (call : func -> val -> val) (defaultValue value : val) : val :=
  match defaultValue with
  | VFun f => call f value
  | _ => defaultValue
  end.

(** The warn decision: [warnIf(value)] when given, else "not nil". *)
Definition warn_decision (warnIf : option (val -> bool)) (value : val) : bool :=
  match warnIf with
  | Some f => f value
  | None => negb (lodash.isNil value)
  end.

(** What [checkType] expects, as its errors word it. *)
Definition expected_description (type : val) : string :=
  match type with
  | VFun c => "instance of " +:+ fn_name c
  | _ => to_string type
  end.

(** The value does not pass the validation [checkType] runs for [type]:
    it is no instance of the class, the registered predicate rejects it,
    or [type] is neither a class nor a string, as [_.isString] has it. *)
Inductive fails_check (r : registry) (value : val) : val -> Prop :=
| fails_class c :
    instanceof value (VFun c) = Return false ->
    fails_check r value (VFun c)
| fails_named t validate :
    has_property r t = true ->
    get_function r t = Some validate ->
    validate value = false ->
    fails_check r value (VStr t)
| fails_other type :
    isClass type = false ->
    lodash.isString type = false ->
    fails_check r value type.

(** Values used in examples. *)
Definition num (z : Z) : val := VNum (Number.of_Z z).

(** [v => typeof v === "number" && v % 2 === 0]. *)
Definition even : validator := fun v =>
  match v with
  | VNum n => Number.equal (Number.remainder n (Number.of_Z 2)) (Number.of_Z 0)
  | _ => false
  end.

(** [class Foo {}], [class Bar extends Foo {}] and [new Bar()]. *)
Definition Foo : func :=
  {| fn_id := 1; fn_name := "Foo"; fn_source := "class Foo {}";
     fn_proto := Function_prototype;
     fn_kind := Ordinary (Some (10%nat, Object_prototype)) |}.

Definition Bar : func :=
  {| fn_id := 2; fn_name := "Bar"; fn_source := "class Bar extends Foo {}";
     fn_proto := 20%nat :: Function_prototype;
     fn_kind := Ordinary (Some (11%nat, 10%nat :: Object_prototype)) |}.

Definition a_bar : object :=
  {| obj_id := 3; obj_proto := 11%nat :: 10%nat :: Object_prototype;
     obj_array := false; obj_tag := TagObject; obj_ctor_Object := false;
     obj_string := "[object Object]" |}.

(** [class Baz extends Bar {}] and the arrow function [x => x], which has
    no [prototype]. *)
Definition Baz : func :=
  {| fn_id := 4; fn_name := "Baz"; fn_source := "class Baz extends Bar {}";
     fn_proto := 21%nat :: 20%nat :: Function_prototype;
     fn_kind :=
       Ordinary (Some (12%nat, 11%nat :: 10%nat :: Object_prototype)) |}.

Definition arrow : func :=
  {| fn_id := 5; fn_name := "arrow"; fn_source := "x => x";
     fn_proto := Function_prototype; fn_kind := Ordinary None |}.

(** [Foo.bind(null)], [new String("number")], [new Number(5)], [Math]
    and [{}]. *)
Definition bound_Foo : func :=
  {| fn_id := 6; fn_name := "bound Foo";
     fn_source := "function () { [native code] }";
     fn_proto := Function_prototype;
     fn_kind := Bound (Some (10%nat, Object_prototype)) |}.

Definition String_number : object :=
  {| obj_id := 8; obj_proto := 3%nat :: Object_prototype; obj_array := false;
     obj_tag := TagString; obj_ctor_Object := false;
     obj_string := "number" |}.

Definition Number_5 : object :=
  {| obj_id := 9; obj_proto := 4%nat :: Object_prototype; obj_array := false;
     obj_tag := TagNumber; obj_ctor_Object := false; obj_string := "5" |}.

Definition Math : object :=
  {| obj_id := 10; obj_proto := Object_prototype; obj_array := false;
     obj_tag := TagOther; obj_ctor_Object := true;
     obj_string := "[object Math]" |}.

Definition empty_object : object :=
  {| obj_id := 11; obj_proto := Object_prototype; obj_array := false;
     obj_tag := TagObject; obj_ctor_Object := true;
     obj_string := "[object Object]" |}.

(** The string begins with a decimal digit. *)
Definition starts_with_digit (s : string) : bool :=
  match s with
  | String c _ => Number.is_digit c
  | EmptyString => false
  end.

(** The predicate the module's initial table holds under a name. *)
Definition builtin (type : string) : option validator :=
  if String.eqb type "alphanumeric" then Some isAlphanumeric
  else if String.eqb type "array" then Some lodash.isArray
  else if String.eqb type "boolean" then Some lodash.isBoolean
  else if String.eqb type "function" then Some lodash.isFunction
  else if String.eqb type "number" then Some lodash.isNumber
  else if String.eqb type "object" then Some lodash.isPlainObject
  else if String.eqb type "string" then Some lodash.isString
  else None.

(** A heap in which every function returns [result]. *)
Definition call_const (result : val) : func -> val -> val :=
  fun _ _ => result.

(** ** Properties *)

(** Unfolds the monad's plumbing in the goal. *)
Ltac run_M :=
  unfold mbind, M_bind, mret, M_ret, get_validators, put_validators, lift,
    throw.

Lemma append_assoc (a b c : string) : (a +:+ b) +:+ c = a +:+ b +:+ c.
Proof.
  induction a as [|ch a IH]; [reflexivity|].
  change (String ch ((a +:+ b) +:+ c) = String ch (a +:+ b +:+ c)).
  now rewrite IH.
Qed.

Lemma strict_equal_undefined (v : val) :
  strict_equal v VUndefined = true <-> v = VUndefined.
Proof. destruct v; simpl; split; congruence. Qed.

(** A prototype chain shorter than a path never reaches that path: an
    object is not on its own chain. *)
Lemma on_chain_shorter (P chain : proto) :
  (List.length chain < List.length P)%nat -> on_chain P chain = false.
Proof.
  induction chain as [|x rest IH]; intros Hlen; simpl; [reflexivity|].
  rewrite bool_decide_eq_false_2.
  - apply IH. simpl in Hlen. lia.
  - intros <-. simpl in Hlen. lia.
Qed.

Lemma on_chain_self (l : nat) (p : proto) : on_chain (l :: p) p = false.
Proof. apply on_chain_shorter. simpl. lia. Qed.

Lemma namePrefix_cases (name : option string) :
  namePrefix name =
  match name with
  | Some n => if decide (n = "") then "" else n +:+ ": "
  | None => ""
  end.
Proof.
  destruct name as [n|]; [|reflexivity].
  unfold namePrefix. simpl.
  destruct (String.eqb_spec n ""); destruct (decide (n = "")); simpl;
    congruence.
Qed.

Section CheckProperties.

Variable call : func -> val -> val.

Lemma check_valid (value : val) (validator : val -> bool) expected name options w :
  validator value = true ->
  check call value validator expected name options w = (Return value, w).
Proof. intros H. unfold check. now rewrite H. Qed.

Lemma check_no_default (value : val) (validator : val -> bool) expected name
  options w :
  validator value = false ->
  truthy (from_option defaultValue VUndefined options) = false ->
  check call value validator expected name options w =
  (Throw (ValidationError (getMessage value expected name)), w).
Proof. intros Hv Hd. unfold check. now rewrite Hv, Hd. Qed.

Lemma check_default (value : val) (validator : val -> bool) expected name o w :
  validator value = false ->
  truthy (defaultValue o) = true ->
  check call value validator expected name (Some o) w =
  (Return (resolved call (defaultValue o) value),
   if warn_decision (warnIf o) value
   then {| validators := validators w;
           log := log w ++ [ {| log_message := getMessage value expected name;
                                log_context := [] |} ] |}
   else w).
Proof.
  intros Hv Hd. unfold check. rewrite Hv. simpl. rewrite Hd.
  unfold warn_decision, resolved.
  destruct (warnIf o) as [f|]; simpl;
    [destruct (f value) | destruct (lodash.isNil value)]; reflexivity.
Qed.

(** C2. When the predicate accepts the value, [check] hands the value
    back and leaves the world as it was: nothing is logged, nothing is
    thrown and the registry is untouched, whatever the description, name
    and options; a second call behaves as the first one did. *)
Theorem check_valid_passthrough (value : val) (validator : val -> bool)
  (expected : string) (name : option string) (options : option options)
  (w : world) :
  validator value = true ->
  check call value validator expected name options w = (Return value, w)
  /\ (x ← check call value validator expected name options;
      y ← check call value validator expected name options;
      mret (x, y)) w = (Return (value, value), w).
Proof.
  intros H. split; [now apply check_valid|].
  run_M. now rewrite !check_valid.
Qed.

End CheckProperties.

(** [check(5, isPrimitive, "primitive")] returns [5]. *)
Lemma check_valid_passthrough_witness :
  isPrimitive (num 5) = true
  /\ check (call_const VNull) (num 5) isPrimitive "primitive" None None
       initial_world = (Return (num 5), initial_world).
Proof.
  split; [reflexivity|].
  apply (check_valid_passthrough (call_const VNull) (num 5) isPrimitive
           "primitive" None None initial_world). reflexivity.
Defined.

(** C4. [ValidationError.getMessage] is a function of the value, the
    expected type and the name alone, and yields
    "<name>: Expected <expectedType>, <rendered> given.": the prefix is
    left out when no name is given (an empty name counts as none), and
    <rendered> is the name of a function value and any other value
    converted to a string. Whenever [check] throws, the error carries
    that message; so a rejected "bad" checked as "primitive" under the
    name "x" with no default throws "x: Expected primitive, bad given." *)
Theorem getMessage_format :
  (forall (value : val) (expectedType : string) (name : option string),
     getMessage value expectedType name =
     match name with
     | Some n => if decide (n = "") then "" else n +:+ ": "
     | None => ""
     end
     +:+ "Expected " +:+ expectedType +:+ ", "
     +:+ match value with
         | VFun f => fn_name f
         | _ => to_string value
         end
     +:+ " given.")
  /\ (forall call value validator expected name options w e w',
        check call value validator expected name options w = (Throw e, w') ->
        e = ValidationError (getMessage value expected name) /\ w' = w)
  /\ (forall call (validator : val -> bool) w,
        validator (VStr "bad") = false ->
        check call (VStr "bad") validator "primitive" (Some "x") None w =
        (Throw (ValidationError "x: Expected primitive, bad given."), w)).
Proof.
  split; [|split].
  - intros value expectedType name. unfold getMessage.
    rewrite namePrefix_cases. destruct value; reflexivity.
  - intros call value validator expected name options w e w' H.
    destruct (validator value) eqn:Hv.
    + rewrite check_valid in H by assumption. discriminate.
    + destruct (truthy (from_option defaultValue VUndefined options)) eqn:Hd.
      * destruct options as [o|]; [|discriminate].
        rewrite check_default in H by assumption. discriminate.
      * rewrite check_no_default in H by assumption.
        injection H as <- <-. now split.
  - intros call validator w Hv. now rewrite check_no_default.
Qed.

(** The message of the example, preview and thrown error alike. *)
Lemma getMessage_format_witness :
  getMessage (VStr "bad") "primitive" (Some "x")
  = "x: Expected primitive, bad given."
  /\ check (call_const VNull) (VStr "bad") (fun _ => false) "primitive"
       (Some "x") None initial_world
     = (Throw (ValidationError "x: Expected primitive, bad given."),
        initial_world).
Proof.
  split.
  - rewrite (proj1 getMessage_format). reflexivity.
  - apply (proj2 (proj2 getMessage_format)). reflexivity.
Defined.

(** C5. [parseNumberStrict] hands a number back unchanged, answers
    [null] for what is neither a number nor a string, and for a string
    answers the parsed number exactly when parsing gives no NaN and the
    number written back out is the string itself, [null] otherwise:
    "007" and "abc" give [null], "7" and 7 give 7. Number and string are
    meant as [typeof] has them: [new Number(7)] gives [null] too. *)
Theorem parseNumberStrict_round_trip :
  (forall n, parseNumberStrict (VNum n) = Some n)
  /\ (forall v, lodash.isNumber v = false -> lodash.isString v = false ->
        parseNumberStrict v = None)
  /\ (forall s n,
        parseNumberStrict (VStr s) = Some n <->
        n = Number.parseFloat s /\ Number.isNaN n = false
        /\ Number.toString n = s)
  /\ (forall s,
        parseNumberStrict (VStr s) = None <->
        Number.isNaN (Number.parseFloat s) = true
        \/ Number.toString (Number.parseFloat s) <> s)
  /\ parseNumberStrict (VStr "007") = None
  /\ parseNumberStrict (VStr "7") = Some (Number.of_Z 7)
  /\ parseNumberStrict (num 7) = Some (Number.of_Z 7)
  /\ parseNumberStrict (VStr "abc") = None
  /\ (forall v, typeof v <> "number" -> typeof v <> "string" ->
        parseNumberStrict v = None)
  /\ parseNumberStrict (VObj Number_5) = None.
Proof.
  split; [reflexivity|].
  split; [destruct v; simpl; intros; congruence|].
  split; [intros s n; split|].
  - unfold parseNumberStrict.
    destruct (Number.isNaN (Number.parseFloat s)) eqn:E; [discriminate|].
    destruct (String.eqb_spec (Number.toString (Number.parseFloat s)) s);
      [|discriminate].
    intros [= <-]. auto.
  - intros (-> & Hnan & Hstr). unfold parseNumberStrict.
    rewrite Hnan, Hstr, String.eqb_refl. reflexivity.
  - split; [intros s; split|].
    + unfold parseNumberStrict.
      destruct (Number.isNaN (Number.parseFloat s)); [now left|].
      destruct (String.eqb_spec (Number.toString (Number.parseFloat s)) s);
        [discriminate | now right].
    + unfold parseNumberStrict.
      intros [-> | Hne]; [reflexivity|].
      destruct (Number.isNaN (Number.parseFloat s)); [reflexivity|].
      destruct (String.eqb_spec (Number.toString (Number.parseFloat s)) s);
        [contradiction | reflexivity].
    + do 4 (split; [vm_compute; reflexivity|]).
      split; [|reflexivity].
      intros v Hn Hs. destruct v; simpl in *; congruence.
Qed.

(** "1.0" parses, but is written back as "1". *)
Lemma parseNumberStrict_round_trip_witness :
  parseNumberStrict (VStr "1.0") = None
  /\ Number.toString (Number.parseFloat "1.0") = "1".
Proof.
  split; [|vm_compute; reflexivity].
  apply (proj1 (proj2 (proj2 (proj2 parseNumberStrict_round_trip)))).
  right. vm_compute. discriminate.
Defined.

(** C8. A class is a subclass of itself exactly when identity is
    included: [isSubClass(X, X, true)] is true and [isSubClass(X, X,
    false)] is false for every callable [X]; and what is not callable is
    a subclass of nothing, whatever [Parent] and [includeIdentity] are. *)
Theorem isSubClass_identity :
  (forall f : func,
     isSubClass (VFun f) (VFun f) (Some true) = Return true
     /\ isSubClass (VFun f) (VFun f) None = Return true
     /\ isSubClass (VFun f) (VFun f) (Some false) = Return false)
  /\ (forall (value Parent : val) (includeIdentity : option bool),
        isClass value = false ->
        isSubClass value Parent includeIdentity = Return false).
Proof.
  split.
  - intros f.
    unfold isSubClass, prototype_property, has_instance, own_prototype,
      instance_prototype.
    cbn [isClass lodash.isFunction negb default strict_equal].
    destruct (fn_kind f) as [[[l p]|]|t]; simpl;
      rewrite ?on_chain_self, bool_decide_eq_true_2 by reflexivity;
      auto.
  - intros value Parent includeIdentity H. unfold isSubClass. now rewrite H.
Qed.

Section CheckTypeProperties.

Variable call : func -> val -> val.

(** The warning of [checkType] is the error message worded with the raw
    [type], followed by " Using default:". *)
Lemma warning_message (value type : val) (name : option string) :
  namePrefix name +:+ "Expected " +:+ to_string type +:+ ", "
  +:+ to_string (valueType value) +:+ " given. Using default:"
  = getMessage value (to_string type) name +:+ " Using default:".
Proof.
  unfold getMessage. now rewrite !append_assoc.
Qed.

Lemma checkType_finish_valid value type name d warnIf expectedType w :
  checkType_finish call value type name d warnIf true expectedType w
  = (Return value, w).
Proof. reflexivity. Qed.

Lemma checkType_finish_invalid value type name d warnIf expectedType w :
  checkType_finish call value type name d warnIf false expectedType w =
  if strict_equal d VUndefined
  then (Throw (ValidationError (getMessage value expectedType name)), w)
  else
    (Return (resolved call d value),
     if warnIf value
     then {| validators := validators w;
             log := log w ++
               [ {| log_message :=
                      getMessage value (to_string type) name
                      +:+ " Using default:";
                    log_context := [resolved call d value] |} ] |}
     else w).
Proof.
  unfold checkType_finish.
  destruct (strict_equal d VUndefined); [reflexivity|].
  rewrite warning_message. fold (resolved call d value).
  destruct (warnIf value); reflexivity.
Qed.

Lemma checkType_named value t name d warnIf w validate :
  has_property (validators w) t = true ->
  get_function (validators w) t = Some validate ->
  checkType call value (VStr t) name d warnIf w =
  checkType_finish call value (VStr t) name d
    (default (fun x => negb (lodash.isNil x)) warnIf) (validate value) t w.
Proof.
  intros Hin Hget. unfold checkType. cbn [lodash.isString to_string].
  run_M. now rewrite Hin, Hget.
Qed.

Lemma checkType_fails value type name d warnIf w :
  fails_check (validators w) value type ->
  checkType call value type name d warnIf w =
  checkType_finish call value type name d
    (default (fun x => negb (lodash.isNil x)) warnIf) false
    (expected_description type) w.
Proof.
  intros [c Hc | t validate Hin Hget Hv | ty Hclass Hstr].
  - unfold checkType. run_M. now rewrite Hc.
  - rewrite (checkType_named _ _ _ _ _ _ validate) by assumption.
    now rewrite Hv.
  - destruct ty; try discriminate; try reflexivity.
    unfold checkType. now rewrite Hstr.
Qed.

(** A string that is neither registered nor inherited by the registry
    object is answered with [false]. *)
Lemma checkType_absent_key value t name d warnIf w :
  has_property (validators w) t = false ->
  checkType call value (VStr t) name d warnIf w = (Return (VBool false), w).
Proof.
  intros H. unfold checkType. cbn [lodash.isString to_string].
  run_M. now rewrite H.
Qed.

(** C1. For a value that fails its check, [check] treats a falsy default
    (0, "", false and the like) as no default at all and throws the
    ValidationError it would throw without options, whereas [checkType]
    hands back any default other than [undefined], 0, false and ""
    included, and throws only when the default is [undefined]. *)
Theorem falsy_default_check_throws_checkType_returns
  (value : val) (validator : val -> bool) (expected : string)
  (name : option string) (o : options)
  (type d : val) (warnIf : option (val -> bool)) (w : world) :
  validator value = false ->
  truthy (defaultValue o) = false ->
  fails_check (validators w) value type ->
  (truthy (num 0) = false /\ truthy (VStr "") = false
   /\ truthy (VBool false) = false)
  /\ check call value validator expected name (Some o) w
     = check call value validator expected name None w
  /\ check call value validator expected name (Some o) w
     = (Throw (ValidationError (getMessage value expected name)), w)
  /\ (d <> VUndefined ->
      fst (checkType call value type name d warnIf w)
      = Return (resolved call d value))
  /\ (d = num 0 \/ d = VBool false \/ d = VStr "" ->
      fst (checkType call value type name d warnIf w) = Return d)
  /\ ((exists e w', checkType call value type name d warnIf w = (Throw e, w'))
      <-> d = VUndefined)
  /\ (d = VUndefined ->
      checkType call value type name d warnIf w
      = (Throw (ValidationError
                  (getMessage value (expected_description type) name)), w)).
Proof.
  intros Hv Hd Hfail.
  split; [repeat split|].
  rewrite (check_no_default call value validator expected name (Some o))
    by assumption.
  rewrite (check_no_default call value validator expected name None)
    by (assumption || reflexivity).
  do 2 (split; [reflexivity|]).
  rewrite (checkType_fails _ _ _ _ _ _ Hfail), checkType_finish_invalid.
  destruct (strict_equal d VUndefined) eqn:E.
  - apply strict_equal_undefined in E. subst d.
    repeat split; try congruence; eauto.
    intros [H | [H | H]]; discriminate.
  - assert (d <> VUndefined) as Hne
      by (intros Heq; apply strict_equal_undefined in Heq; congruence).
    repeat split; try congruence.
    + intros [-> | [-> | ->]]; reflexivity.
    + intros (e & w' & H). discriminate.
Qed.

(** C9. When [checkType] falls back to a default and the warn decision
    is true, it logs one warning, the error message of 4.4 worded with
    the raw [type] in place of the expected description, followed by
    " Using default:" and with the resolved default as context, and it
    returns the resolved default: the default itself, or what it returns
    for the value when it is a function. *)
Theorem checkType_default_warning
  (value type : val) (name : option string) (d : val)
  (warnIf : option (val -> bool)) (w : world) :
  fails_check (validators w) value type ->
  d <> VUndefined ->
  warn_decision warnIf value = true ->
  checkType call value type name d warnIf w =
  (Return (resolved call d value),
   {| validators := validators w;
      log := log w ++
        [ {| log_message :=
               getMessage value (to_string type) name +:+ " Using default:";
             log_context := [resolved call d value] |} ] |})
  /\ (forall f, d = VFun f -> resolved call d value = call f value)
  /\ (lodash.isFunction d = false -> resolved call d value = d).
Proof.
  intros Hfail Hd Hwarn.
  rewrite (checkType_fails _ _ _ _ _ _ Hfail), checkType_finish_invalid.
  destruct (strict_equal d VUndefined) eqn:E;
    [apply strict_equal_undefined in E; contradiction|].
  replace (default (fun x => negb (lodash.isNil x)) warnIf value)
    with (warn_decision warnIf value) by (now destruct warnIf).
  rewrite Hwarn. split; [reflexivity|].
  split; [now intros f ->|]. now destruct d.
Qed.

(** C10, as amended. A [type] that is neither callable nor a string for
    [_.isString] (which takes a String object for one) makes every value
    invalid: [checkType] throws a ValidationError when the default is
    [undefined] and returns the resolved default otherwise; the value
    itself comes back only when the resolved default is that value. *)
Theorem checkType_unknown_kind_of_type
  (value type : val) (name : option string) (d : val)
  (warnIf : option (val -> bool)) (w : world) :
  isClass type = false ->
  lodash.isString type = false ->
  (d = VUndefined ->
   checkType call value type name d warnIf w
   = (Throw (ValidationError (getMessage value (to_string type) name)), w))
  /\ (d <> VUndefined ->
      fst (checkType call value type name d warnIf w)
      = Return (resolved call d value)
      /\ validators (snd (checkType call value type name d warnIf w))
         = validators w)
  /\ (fst (checkType call value type name d warnIf w) = Return value
      <-> d <> VUndefined /\ resolved call d value = value).
Proof.
  intros Hclass Hstr.
  rewrite (checkType_fails value type name d warnIf w)
    by (now apply fails_other).
  rewrite checkType_finish_invalid.
  replace (expected_description type) with (to_string type)
    by (destruct type; try reflexivity; discriminate).
  destruct (strict_equal d VUndefined) eqn:E.
  - apply strict_equal_undefined in E. subst d.
    repeat split; try congruence; simpl; try discriminate.
    intros [Hd _]. congruence.
  - assert (d <> VUndefined) as Hne
      by (intros Heq; apply strict_equal_undefined in Heq; congruence).
    repeat split; try congruence.
    + now destruct (default (fun x => negb (lodash.isNil x)) warnIf value).
    + simpl in *. congruence.
    + intros [_ Hres]. simpl. congruence.
Qed.

End CheckTypeProperties.

(** *** The registry after [setValidator] *)

Lemma set_property_get_entry (r : registry) (type : string) (e : validator_entry) :
  get_entry (set_property r type e) type = Some e.
Proof.
  unfold set_property, get_entry.
  destruct (String.eqb_spec type "__proto__") as [->|Hne]; simpl.
  - destruct (bool_decide (own r !! "__proto__" = None)) eqn:E; simpl.
    + apply bool_decide_eq_true in E. now rewrite E.
    + now rewrite lookup_insert_eq.
  - now rewrite lookup_insert_eq.
Qed.

Lemma set_property_get_function (r : registry) (type : string)
  (e : validator_entry) :
  get_function (set_property r type e) type = Some (entry_function e).
Proof.
  unfold set_property, get_function.
  destruct (String.eqb_spec type "__proto__") as [->|Hne]; simpl.
  - destruct (bool_decide (own r !! "__proto__" = None)) eqn:E; simpl.
    + apply bool_decide_eq_true in E. now rewrite E.
    + now rewrite lookup_insert_eq.
  - now rewrite lookup_insert_eq.
Qed.

Lemma set_property_has_property (r : registry) (type : string)
  (e : validator_entry) :
  has_property (set_property r type e) type = true.
Proof.
  unfold set_property, has_property.
  destruct (String.eqb_spec type "__proto__") as [->|Hne]; simpl.
  - destruct (bool_decide (own r !! "__proto__" = None)); simpl.
    + apply orb_true_r.
    + rewrite lookup_insert_eq. reflexivity.
  - rewrite lookup_insert_eq. reflexivity.
Qed.

(** [in] answers no exactly for the strings that are neither stored in
    the registry object nor inherited by it. *)
Lemma has_property_false (r : registry) (type : string) :
  has_property r type = false <->
  own r !! type = None
  /\ (type ∉ Object_prototype_keys)
  /\ (parent r = None \/ (type ∉ ["name"; "function"])).
Proof.
  unfold has_property. rewrite !orb_false_iff, !bool_decide_eq_false.
  rewrite <- eq_None_not_Some.
  destruct (parent r) as [e|]; rewrite ?bool_decide_eq_false.
  - split; [intros [[? ?] ?]; auto | intros (? & ? & [?|?]); [discriminate|auto]].
  - split; [intros [[? ?] ?]; auto | intros (? & ? & ?); auto].
Qed.

Section RegistryProperties.

Variable call : func -> val -> val.

(** C3 fails on the code for the names every object inherits:
    "toString" is no registered type, yet [in] finds it on
    [Object.prototype], the lookup yields no [function], and the call
    throws a TypeError where [false] was to be returned. *)
Theorem checkType_inherited_key_throws :
  own initial_validators !! "toString" = None
  /\ has_property initial_validators "toString" = true
  /\ checkType call (num 1) (VStr "toString") (Some "x") VUndefined None
       initial_world
     = (Throw TypeError, initial_world).
Proof. repeat split. Qed.

(** C6. When [check] falls back to a truthy default, it returns the
    resolved default and logs the message of 4.4 exactly when
    [warnIf(value)] is true, or, with no [warnIf], when the value is
    neither [null] nor [undefined]; the registry stays as it was. So
    [check(undefined, isPrimitive, "primitive", "x", { defaultValue: 1 })]
    returns 1 and logs nothing. *)
Theorem check_default_warning :
  (forall (value : val) (validator : val -> bool) (expected : string)
          (name : option string) (o : options) (w : world),
     validator value = false ->
     truthy (defaultValue o) = true ->
     fst (check call value validator expected name (Some o) w)
     = Return (resolved call (defaultValue o) value)
     /\ validators (snd (check call value validator expected name (Some o) w))
        = validators w
     /\ log (snd (check call value validator expected name (Some o) w))
        = if match warnIf o with
             | Some f => f value
             | None =>
                 match value with
                 | VNull | VUndefined => false
                 | _ => true
                 end
             end
          then (log w ++ [ {| log_message := getMessage value expected name;
                              log_context := [] |} ])%list
          else log w)
  /\ (forall w,
        check call VUndefined isPrimitive "primitive" (Some "x")
          (Some {| defaultValue := num 1; warnIf := None |}) w
        = (Return (num 1), w)).
Proof.
  split.
  - intros value validator expected name o w Hv Hd.
    rewrite check_default by assumption.
    replace (match warnIf o with
             | Some f => f value
             | None => match value with
                       | VNull | VUndefined => false
                       | _ => true
                       end
             end) with (warn_decision (warnIf o) value)
      by (unfold warn_decision; destruct (warnIf o); [|destruct value];
          reflexivity).
    destruct (warn_decision (warnIf o) value); repeat split.
  - intros w. now rewrite check_default.
Qed.

(** C7. [setValidator(k, p, n)] leaves the registry answering [k] with
    the record of display name [n] ([k] when [n] is left out) and
    predicate [p], whatever [k] held before, and logs nothing. As long as
    the registry stays so, [checkType(v, k, name)] runs [p]: it returns
    [v] when [p(v)] is true and, with no default, throws the
    ValidationError when [p(v)] is false. With "even" registered,
    [checkType(4, "even", "n")] returns 4 and [checkType(3, "even", "n")]
    throws. *)
Theorem setValidator_then_checkType :
  (forall (type : string) (validator : validator) (name : option string)
          (w : world),
     fst (setValidator type validator name w) = Return tt
     /\ log (snd (setValidator type validator name w)) = log w
     /\ get_entry (validators (snd (setValidator type validator name w))) type
        = Some {| entry_name := default type name;
                  entry_function := validator |}
     /\ forall (w' : world) (value : val) (vname : option string)
               (d : val) (warnIf : option (val -> bool)),
          validators w' = validators (snd (setValidator type validator name w)) ->
          (validator value = true ->
           checkType call value (VStr type) vname d warnIf w'
           = (Return value, w'))
          /\ (validator value = false ->
              checkType call value (VStr type) vname VUndefined warnIf w'
              = (Throw (ValidationError (getMessage value type vname)), w')))
  /\ fst (checkType call (num 4) (VStr "even") (Some "n") VUndefined None
            (snd (setValidator "even" even None initial_world)))
     = Return (num 4)
  /\ fst (checkType call (num 3) (VStr "even") (Some "n") VUndefined None
            (snd (setValidator "even" even None initial_world)))
     = Throw (ValidationError "n: Expected even, 3 given.").
Proof.
  assert (forall type validator name w w' value vname d warnIf,
            validators w' = validators (snd (setValidator type validator name w)) ->
            checkType call value (VStr type) vname d warnIf w'
            = checkType_finish call value (VStr type) vname d
                (default (fun x => negb (lodash.isNil x)) warnIf)
                (validator value) type w') as Hrun.
  { intros type validator name w w' value vname d warnIf Hw.
    apply checkType_named; rewrite Hw; simpl.
    - apply set_property_has_property.
    - now rewrite set_property_get_function. }
  split; [|split].
  - intros type validator name w. split; [reflexivity|].
    split; [reflexivity|]. split.
    + simpl. rewrite set_property_get_entry. now destruct name.
    + intros w' value vname d warnIf Hw.
      split; intros Hv.
      * rewrite (Hrun type validator name w) by assumption. now rewrite Hv.
      * rewrite (Hrun type validator name w) by assumption. now rewrite Hv.
  - rewrite (Hrun "even" even None initial_world) by reflexivity.
    reflexivity.
  - rewrite (Hrun "even" even None initial_world) by reflexivity.
    reflexivity.
Qed.

End RegistryProperties.

(** ** The properties at work *)

(** "bad" is no number: [check] with default 0 throws as with no default,
    [checkType] with default 0 returns it. *)
Lemma falsy_default_check_throws_checkType_returns_witness :
  lodash.isNumber (VStr "bad") = false
  /\ truthy (num 0) = false
  /\ fails_check initial_validators (VStr "bad") (VStr "number")
  /\ check (call_const VNull) (VStr "bad") lodash.isNumber "number" (Some "x")
       (Some {| defaultValue := num 0; warnIf := None |}) initial_world
     = (Throw (ValidationError "x: Expected number, bad given."), initial_world)
  /\ fst (checkType (call_const VNull) (VStr "bad") (VStr "number") (Some "x")
            (num 0) None initial_world)
     = Return (num 0).
Proof.
  assert (fails_check initial_validators (VStr "bad") (VStr "number")) as Hf
    by (apply (fails_named _ _ "number" lodash.isNumber); reflexivity).
  do 3 (split; [first [reflexivity | exact Hf]|]).
  destruct (falsy_default_check_throws_checkType_returns (call_const VNull)
              (VStr "bad") lodash.isNumber "number" (Some "x")
              {| defaultValue := num 0; warnIf := None |}
              (VStr "number") (num 0) None initial_world
              eq_refl eq_refl Hf)
    as (_ & _ & Hcheck & _ & Hzero & _).
  split; [exact Hcheck | apply Hzero; now left].
Defined.

(** A present but invalid value is replaced and reported; an absent one
    is replaced silently. *)
Lemma check_default_warning_witness :
  lodash.isNumber (VStr "bad") = false
  /\ truthy (num 1) = true
  /\ fst (check (call_const VNull) (VStr "bad") lodash.isNumber "number"
            (Some "x") (Some {| defaultValue := num 1; warnIf := None |})
            initial_world)
     = Return (num 1)
  /\ log (snd (check (call_const VNull) (VStr "bad") lodash.isNumber "number"
                 (Some "x") (Some {| defaultValue := num 1; warnIf := None |})
                 initial_world))
     = [ {| log_message := "x: Expected number, bad given.";
            log_context := [] |} ]
  /\ log (snd (check (call_const VNull) VUndefined isPrimitive "primitive"
                 (Some "x") (Some {| defaultValue := num 1; warnIf := None |})
                 initial_world))
     = [].
Proof.
  do 2 (split; [reflexivity|]).
  destruct (proj1 (check_default_warning (call_const VNull))
              (VStr "bad") lodash.isNumber "number" (Some "x")
              {| defaultValue := num 1; warnIf := None |} initial_world
              eq_refl eq_refl)
    as (Hret & _ & Hlog).
  split; [exact Hret|]. split; [exact Hlog|].
  now rewrite (proj2 (check_default_warning (call_const VNull)) initial_world).
Defined.

(** Registering "even" and checking 4 against it. *)
Lemma setValidator_then_checkType_witness :
  even (num 4) = true
  /\ even (num 3) = false
  /\ fst (checkType (call_const VNull) (num 4) (VStr "even") (Some "n")
            VUndefined None (snd (setValidator "even" even None initial_world)))
     = Return (num 4)
  /\ fst (checkType (call_const VNull) (num 3) (VStr "even") (Some "n")
            VUndefined None (snd (setValidator "even" even None initial_world)))
     = Throw (ValidationError "n: Expected even, 3 given.").
Proof.
  do 2 (split; [vm_compute; reflexivity|]).
  destruct (proj1 (setValidator_then_checkType (call_const VNull))
              "even" even None initial_world)
    as (_ & _ & _ & Hrun).
  split.
  - destruct (Hrun (snd (setValidator "even" even None initial_world))
                (num 4) (Some "n") VUndefined None eq_refl) as [Hok _].
    rewrite Hok; [reflexivity | vm_compute; reflexivity].
  - destruct (Hrun (snd (setValidator "even" even None initial_world))
                (num 3) (Some "n") VUndefined None eq_refl) as [_ Hko].
    rewrite Hko; [reflexivity | vm_compute; reflexivity].
Defined.

(** The warning for "bad" checked as a number with default 0. *)
Lemma checkType_default_warning_witness :
  fails_check initial_validators (VStr "bad") (VStr "number")
  /\ num 0 <> VUndefined
  /\ warn_decision None (VStr "bad") = true
  /\ fst (checkType (call_const VNull) (VStr "bad") (VStr "number") (Some "x")
            (num 0) None initial_world)
     = Return (num 0)
  /\ log (snd (checkType (call_const VNull) (VStr "bad") (VStr "number")
                 (Some "x") (num 0) None initial_world))
     = [ {| log_message := "x: Expected number, bad given. Using default:";
            log_context := [num 0] |} ].
Proof.
  assert (fails_check initial_validators (VStr "bad") (VStr "number")) as Hf
    by (apply (fails_named _ _ "number" lodash.isNumber); reflexivity).
  assert (num 0 <> VUndefined) as Hd by discriminate.
  do 3 (split; [first [reflexivity | assumption]|]).
  destruct (checkType_default_warning (call_const VNull) (VStr "bad")
              (VStr "number") (Some "x") (num 0) None initial_world
              Hf Hd eq_refl) as [Hrun _].
  rewrite Hrun. split; reflexivity.
Defined.

(** A number where a type was expected: 42 is no class and no string. *)
Lemma checkType_unknown_kind_of_type_witness :
  isClass (num 42) = false
  /\ lodash.isString (num 42) = false
  /\ checkType (call_const VNull) (VStr "ok") (num 42) (Some "x") VUndefined
       None initial_world
     = (Throw (ValidationError "x: Expected 42, ok given."), initial_world)
  /\ fst (checkType (call_const VNull) (VStr "ok") (num 42) (Some "x") (num 0)
            None initial_world)
     = Return (num 0).
Proof.
  do 2 (split; [reflexivity|]).
  split.
  - destruct (checkType_unknown_kind_of_type (call_const VNull) (VStr "ok")
                (num 42) (Some "x") VUndefined None initial_world
                eq_refl eq_refl) as (Hthrow & _).
    rewrite Hthrow by reflexivity.
    replace (getMessage (VStr "ok") (to_string (num 42)) (Some "x"))
      with "x: Expected 42, ok given." by (vm_compute; reflexivity).
    reflexivity.
  - destruct (checkType_unknown_kind_of_type (call_const VNull) (VStr "ok")
                (num 42) (Some "x") (num 0) None initial_world
                eq_refl eq_refl) as (_ & Hret & _).
    apply Hret. discriminate.
Defined.

(** [Foo] against itself, and a number against [Foo]. *)
Lemma isSubClass_identity_witness :
  isSubClass (VFun Foo) (VFun Foo) (Some false) = Return false
  /\ isClass (num 3) = false
  /\ isSubClass (num 3) (VFun Foo) None = Return false.
Proof.
  split; [apply (proj1 isSubClass_identity Foo)|].
  split; [reflexivity|].
  apply (proj2 isSubClass_identity). reflexivity.
Defined.

(** C10 as first stated ("it never returns v itself on this path") fails
    where the default is the value: [checkType(5, 42, "n", 5)] returns 5,
    and an object given as its own default comes back itself. *)
Lemma checkType_unknown_kind_counterexample :
  isClass (num 42) = false
  /\ lodash.isString (num 42) = false
  /\ fst (checkType (call_const VNull) (num 5) (num 42) (Some "n") (num 5)
            None initial_world)
     = Return (num 5)
  /\ fst (checkType (call_const VNull) (VObj a_bar) VNull (Some "n")
            (VObj a_bar) None initial_world)
     = Return (VObj a_bar).
Proof. repeat split. Qed.

(** *** Further examples *)

Example isSubClass_derived :
  isSubClass (VFun Bar) (VFun Foo) None = Return true
  /\ isSubClass (VFun Bar) (VFun Foo) (Some false) = Return true
  /\ isSubClass (VFun Foo) (VFun Bar) None = Return false
  /\ isSubClass (VFun Foo) (num 3) None = Throw TypeError.
Proof. repeat split. Qed.

Example checkType_class :
  fst (checkType (call_const VNull) (VObj a_bar) (VFun Foo) (Some "x")
         VUndefined None initial_world)
  = Return (VObj a_bar)
  /\ fst (checkType (call_const VNull) (num 1) (VFun Foo) (Some "x")
            VUndefined None initial_world)
     = Throw (ValidationError "x: Expected instance of Foo, 1 given.")
  /\ log (snd (checkType (call_const VNull) (num 1) (VFun Foo) (Some "x")
                 (num 0) None initial_world))
     = [ {| log_message := "x: Expected class Foo {}, 1 given. Using default:";
            log_context := [num 0] |} ].
Proof. repeat split. Qed.

Example checkType_nonexistent_key (value : val) :
  checkType (call_const VNull) value (VStr "nonexistent-key") (Some "x")
    VUndefined None initial_world
  = (Return (VBool false), initial_world).
Proof. now apply checkType_absent_key. Qed.

Example checkType_registered :
  fst (checkType (call_const VNull) (VStr "abc") (VStr "alphanumeric")
         (Some "x") VUndefined None initial_world)
  = Return (VStr "abc")
  /\ fst (checkType (call_const VNull) VNull (VStr "alphanumeric")
            (Some "x") VUndefined None initial_world)
     = Throw (ValidationError "x: Expected alphanumeric, null given.").
Proof. repeat split. Qed.

(** A String object is a type name like its string: [checkType(5, new
    String("number"), "n")] consults the registry and returns 5. *)
Example checkType_String_object_type :
  isClass (VObj String_number) = false
  /\ lodash.isString (VObj String_number) = true
  /\ fst (checkType (call_const VNull) (num 5) (VObj String_number) (Some "n")
            VUndefined None initial_world)
     = Return (num 5)
  /\ fst (checkType (call_const VNull) (VStr "five") (VObj String_number)
            (Some "n") VUndefined None initial_world)
     = Throw (ValidationError "n: Expected number, five given.").
Proof. repeat split. Qed.

(** [instanceof] asks the target of a bound function: an instance of
    [Bar] passes for [Foo.bind(null)], which has no [prototype] itself. *)
Example checkType_bound_class :
  own_prototype bound_Foo = None
  /\ fst (checkType (call_const VNull) (VObj a_bar) (VFun bound_Foo) (Some "x")
            VUndefined None initial_world)
     = Return (VObj a_bar)
  /\ isSubClass (VFun Bar) (VFun bound_Foo) None = Return true
  /\ isSubClass (VFun bound_Foo) (VFun Foo) None = Return false
  /\ fst (checkType (call_const VNull) (VObj a_bar) (VFun arrow) (Some "x")
            VUndefined None initial_world)
     = Throw TypeError.
Proof. repeat split. Qed.

(** The built-in names on objects: [Math] and an instance of [Bar] are no
    plain objects, [{}] is one, and [new Number(5)] is a number. *)
Example checkType_builtin_objects :
  fst (checkType (call_const VNull) (VObj Math) (VStr "object") (Some "x")
         VUndefined None initial_world)
  = Throw (ValidationError "x: Expected object, [object Math] given.")
  /\ fst (checkType (call_const VNull) (VObj a_bar) (VStr "object") (Some "x")
            VUndefined None initial_world)
     = Throw (ValidationError "x: Expected object, [object Object] given.")
  /\ fst (checkType (call_const VNull) (VObj empty_object) (VStr "object")
            (Some "x") VUndefined None initial_world)
     = Return (VObj empty_object)
  /\ fst (checkType (call_const VNull) (VObj Number_5) (VStr "number")
            (Some "x") VUndefined None initial_world)
     = Return (VObj Number_5)
  /\ map isPrimitive [VObj Number_5; VObj String_number; VObj Math; num 5]
     = [true; true; false; true].
Proof. repeat split. Qed.

(** The number model on well-known values. *)
Example parseFloat_examples :
  map (fun s => Number.toString (Number.parseFloat s))
    [ "7"; "007"; "abc"; "1.0"; "0.1"; "-0"; ".5"; "5."; "  12px"; "1e21";
      "1e-7"; "0.000001"; "123456789012345680000"; "9007199254740993";
      "0.30000000000000004"; "-.5e1x"; "Infinity"; "1e400"; "0x10"; "" ]
  = [ "7"; "7"; "NaN"; "1"; "0.1"; "0"; "0.5"; "5"; "12"; "1e+21";
      "1e-7"; "0.000001"; "123456789012345680000"; "9007199254740992";
      "0.30000000000000004"; "-5"; "Infinity"; "Infinity"; "0"; "NaN" ].
Proof. vm_compute. reflexivity. Qed.

Example remainder_examples :
  map (fun z => Number.toString (Number.remainder (Number.of_Z z) (Number.of_Z 2)))
    [4; 3; -3; 0]
  = [ "0"; "1"; "-1"; "0" ]
  /\ map even [num 4; num 3; num 0; num (-2); VStr "4"; VNull]
     = [ true; false; true; true; false; false ].
Proof. split; vm_compute; reflexivity. Qed.

(** ** Further properties of the module *)

(** *** The subclass relation *)

(** The walk finds [P] exactly when [P] is a prototype object, and the
    chain ends with the path of [P]. *)
Lemma on_chain_suffix (P chain : proto) :
  on_chain P chain = true <-> P <> [] /\ P `suffix_of` chain.
Proof.
  induction chain as [|x rest IH].
  - split; [discriminate|]. intros [HP Hs]. apply suffix_nil_inv in Hs.
    contradiction.
  - change (on_chain P (x :: rest))
      with (if bool_decide (x :: rest = P) then true else on_chain P rest).
    case_bool_decide as E.
    + subst P. split; [|reflexivity].
      intros _. split; [discriminate | reflexivity].
    + rewrite IH. split.
      * intros [HP Hs]. split; [assumption|]. now apply suffix_cons_r.
      * intros [HP Hs]. split; [assumption|].
        destruct P as [|y P']; [contradiction|].
        apply suffix_cons_inv in Hs as [Heq|Hs]; [congruence | assumption].
Qed.

Lemma on_chain_trans (P Q chain : proto) (l : nat) :
  on_chain (l :: Q) chain = true -> on_chain P Q = true ->
  on_chain P chain = true.
Proof.
  rewrite !on_chain_suffix. intros [_ H1] [HP H2]. split; [assumption|].
  transitivity Q; [assumption|]. transitivity (l :: Q); [|assumption].
  now apply suffix_cons_r.
Qed.

(** A function with a [prototype] of its own is no bound function, so
    [instanceof] looks for that object. *)
Lemma own_instance_prototype (f : func) (P : nat * proto) :
  own_prototype f = Some P -> instance_prototype f = Some P.
Proof.
  unfold own_prototype, instance_prototype.
  destruct (fn_kind f); [trivial | discriminate].
Qed.

(** [isSubClass] between two functions, identity left aside. *)
Lemma isSubClass_proper (a b : func) :
  isSubClass (VFun a) (VFun b) (Some false) = Return true <->
  exists la pa lb pb,
    own_prototype a = Some (la, pa) /\ instance_prototype b = Some (lb, pb)
    /\ on_chain (lb :: pb) pa = true.
Proof.
  unfold isSubClass, prototype_property, has_instance.
  cbn [isClass lodash.isFunction negb default strict_equal].
  destruct (own_prototype a) as [[la pa]|] eqn:Ea;
    destruct (instance_prototype b) as [[lb pb]|] eqn:Eb; simpl.
  - rewrite orb_false_r. split.
    + intros [= Hc]. exists la, pa, lb, pb. auto.
    + intros (la' & pa' & lb' & pb' & Ha & Hb & Hc).
      injection Ha as <- <-. injection Hb as <- <-. now rewrite Hc.
  - split; [discriminate|].
    intros (la' & pa' & lb' & pb' & _ & Hb & _). discriminate.
  - split; [discriminate|].
    intros (la' & pa' & lb' & pb' & Ha & _). discriminate.
  - split; [discriminate|].
    intros (la' & pa' & lb' & pb' & Ha & _). discriminate.
Qed.

(** [isSubClass] between two functions. *)
Lemma isSubClass_fun (a b : func) (includeIdentity : option bool) :
  isSubClass (VFun a) (VFun b) includeIdentity =
  match own_prototype a, instance_prototype b with
  | Some (_, pa), Some (lb, pb) =>
      Return (on_chain (lb :: pb) pa
              || (default true includeIdentity && bool_decide (a = b)))
  | Some _, None => Throw TypeError
  | None, _ => Return (default true includeIdentity && bool_decide (a = b))
  end.
Proof.
  unfold isSubClass, prototype_property, has_instance.
  cbn [isClass lodash.isFunction negb strict_equal].
  destruct (own_prototype a) as [[la pa]|],
    (instance_prototype b) as [[lb pb]|]; reflexivity.
Qed.

(** Whoever is a subclass without being the class itself is a proper
    subclass. *)
Lemma isSubClass_distinct (a b : func) (includeIdentity : option bool) :
  a <> b ->
  isSubClass (VFun a) (VFun b) includeIdentity = Return true ->
  exists la pa lb pb,
    own_prototype a = Some (la, pa) /\ instance_prototype b = Some (lb, pb)
    /\ on_chain (lb :: pb) pa = true.
Proof.
  intros Hab. rewrite isSubClass_fun.
  rewrite (bool_decide_eq_false_2 (a = b)) by assumption.
  rewrite andb_false_r.
  destruct (own_prototype a) as [[la pa]|],
    (instance_prototype b) as [[lb pb]|]; try discriminate.
  rewrite orb_false_r. intros [= H]. eauto 10.
Qed.

(** X9. Subclassing is transitive, with identity included or not: when
    [A] is a subclass of [B] and [B] one of [C], [isSubClass(A, C)] is
    true. *)
Theorem isSubClass_transitive (a b c : func) (includeIdentity : option bool) :
  isSubClass (VFun a) (VFun b) includeIdentity = Return true ->
  isSubClass (VFun b) (VFun c) includeIdentity = Return true ->
  isSubClass (VFun a) (VFun c) includeIdentity = Return true.
Proof.
  intros H1 H2.
  destruct (decide (a = b)) as [->|Hab]; [exact H2|].
  destruct (decide (b = c)) as [->|Hbc]; [exact H1|].
  apply isSubClass_distinct in H1 as (la & pa & lb & pb & Ha & Hb & H1);
    [|assumption].
  apply isSubClass_distinct in H2 as (lb' & pb' & lc & pc & Hb' & Hc & H2);
    [|assumption].
  apply own_instance_prototype in Hb'.
  rewrite Hb in Hb'. injection Hb' as <- <-.
  rewrite isSubClass_fun, Ha, Hc.
  now rewrite (on_chain_trans (lc :: pc) pb pa lb).
Qed.

(** X10. Subclassing is antisymmetric: of two different classes at most
    one is a subclass of the other, so [isSubClass(B, A)] is false when
    [isSubClass(A, B)] is true and [A] is not [B]. *)
Theorem isSubClass_antisymmetric (a b : func) (includeIdentity : option bool) :
  a <> b ->
  isSubClass (VFun a) (VFun b) includeIdentity = Return true ->
  isSubClass (VFun b) (VFun a) includeIdentity = Return false.
Proof.
  intros Hab H.
  apply isSubClass_distinct in H as (la & pa & lb & pb & Ha & Hb & H);
    [|assumption].
  rewrite isSubClass_fun, (own_instance_prototype a _ Ha).
  rewrite (bool_decide_eq_false_2 (b = a)) by congruence.
  rewrite andb_false_r.
  destruct (own_prototype b) as [[lb' pb']|] eqn:Hb'; [|reflexivity].
  apply own_instance_prototype in Hb'.
  rewrite Hb in Hb'. injection Hb' as <- <-.
  rewrite orb_false_r. f_equal.
  apply on_chain_shorter.
  apply on_chain_suffix in H as [_ [pre ->]].
  simpl. rewrite length_app. simpl. lia.
Qed.

(** X11. Instances are inherited: a value that [instanceOf(A)] accepts
    is accepted by [instanceOf(B)] for every [B] that [subClass(B)]
    accepts [A] for. *)
Theorem instanceOf_subClass (a b : func) (includeIdentity : option bool)
  (value : val) :
  subClass (VFun b) includeIdentity (VFun a) = Return true ->
  instanceOf (VFun a) value = Return true ->
  instanceOf (VFun b) value = Return true.
Proof.
  unfold subClass, instanceOf. intros Hsub Hinst.
  destruct (decide (a = b)) as [->|Hab]; [assumption|].
  apply isSubClass_distinct in Hsub as (la & pa & lb & pb & Ha & Hb & Hsub);
    [|assumption].
  apply own_instance_prototype in Ha.
  unfold instanceof, has_instance in *. rewrite Ha in Hinst. rewrite Hb.
  destruct (prototype_of value) as [chain|]; [|discriminate].
  injection Hinst as Hinst.
  now rewrite (on_chain_trans (lb :: pb) pa chain la).
Qed.

(** X12. With a [Parent] that is not callable, [isSubClass] throws a
    TypeError for every callable value; and including identity matters
    only for [Parent] itself: for any other value both settings agree. *)
Theorem isSubClass_parent_edge :
  (forall (value Parent : val) (includeIdentity : option bool),
     isClass value = true -> isClass Parent = false ->
     isSubClass value Parent includeIdentity = Throw TypeError)
  /\ (forall (value Parent : val),
        strict_equal value Parent = false ->
        isSubClass value Parent (Some true)
        = isSubClass value Parent (Some false)).
Proof.
  split.
  - intros value Parent i Hv HP. unfold isSubClass. rewrite Hv. simpl.
    destruct Parent; try reflexivity. discriminate.
  - intros value Parent H. unfold isSubClass. rewrite H. reflexivity.
Qed.

Lemma isSubClass_transitive_witness :
  isSubClass (VFun Baz) (VFun Bar) None = Return true
  /\ isSubClass (VFun Bar) (VFun Foo) None = Return true
  /\ isSubClass (VFun Baz) (VFun Foo) None = Return true.
Proof.
  do 2 (split; [reflexivity|]).
  apply (isSubClass_transitive Baz Bar Foo None); reflexivity.
Defined.

Lemma isSubClass_antisymmetric_witness :
  Bar <> Foo
  /\ isSubClass (VFun Bar) (VFun Foo) None = Return true
  /\ isSubClass (VFun Foo) (VFun Bar) None = Return false.
Proof.
  assert (Bar <> Foo) as Hne by discriminate.
  split; [exact Hne|]. split; [reflexivity|].
  apply (isSubClass_antisymmetric Bar Foo None Hne). reflexivity.
Defined.

Lemma instanceOf_subClass_witness :
  subClass (VFun Foo) None (VFun Bar) = Return true
  /\ instanceOf (VFun Bar) (VObj a_bar) = Return true
  /\ instanceOf (VFun Foo) (VObj a_bar) = Return true.
Proof.
  do 2 (split; [reflexivity|]).
  apply (instanceOf_subClass Bar Foo None (VObj a_bar)); reflexivity.
Defined.

Lemma isSubClass_parent_edge_witness :
  isSubClass (VFun Foo) (num 3) None = Throw TypeError
  /\ isSubClass (VFun Bar) (VFun Foo) (Some true)
     = isSubClass (VFun Bar) (VFun Foo) (Some false).
Proof.
  split.
  - apply (proj1 isSubClass_parent_edge); reflexivity.
  - apply (proj2 isSubClass_parent_edge). reflexivity.
Defined.

(** *** What the entry points do to the world *)

Lemma world_eta (w : world) :
  {| validators := validators w; log := log w ++ [] |} = w.
Proof. destruct w. simpl. now rewrite app_nil_r. Qed.

Lemma checkType_string_cases call value t name d warnIf w :
  checkType call value (VStr t) name d warnIf w =
  if has_property (validators w) t then
    match get_function (validators w) t with
    | Some validate =>
        checkType_finish call value (VStr t) name d
          (default (fun x => negb (lodash.isNil x)) warnIf)
          (validate value) t w
    | None => (Throw TypeError, w)
    end
  else (Return (VBool false), w).
Proof.
  unfold checkType. run_M. simpl.
  destruct (has_property (validators w) t); simpl; [|reflexivity].
  now destruct (get_function (validators w) t).
Qed.

(** The tail of [checkType] does the same in every world: an outcome,
    and at most one warning, none when it throws. *)
Lemma checkType_finish_effects call value type name d warnIf valid expectedType :
  exists (o : outcome val) (l : list log_entry),
    (List.length l <= 1)%nat
    /\ (forall e, o = Throw e -> l = [])
    /\ forall w,
         checkType_finish call value type name d warnIf valid expectedType w
         = (o, {| validators := validators w; log := log w ++ l |}).
Proof.
  destruct valid.
  - exists (Return value), [].
    split; [simpl; lia|]. split; [reflexivity|].
    intros w. now rewrite checkType_finish_valid, world_eta.
  - destruct (strict_equal d VUndefined) eqn:E.
    + exists (Throw (ValidationError (getMessage value expectedType name))), [].
      split; [simpl; lia|]. split; [reflexivity|].
      intros w. now rewrite checkType_finish_invalid, E, world_eta.
    + destruct (warnIf value) eqn:Ew.
      * eexists (Return (resolved call d value)), [_].
        split; [simpl; lia|]. split; [discriminate|].
        intros w. rewrite checkType_finish_invalid, E, Ew. reflexivity.
      * exists (Return (resolved call d value)), [].
        split; [simpl; lia|]. split; [reflexivity|].
        intros w. now rewrite checkType_finish_invalid, E, Ew, world_eta.
Qed.

(** X2. [check] neither reads nor writes the registry: whatever the
    world, it gives the same outcome, leaves the registry alone and adds
    at most one warning to the log, none when it throws and none when the
    value is valid. *)
Theorem check_effects call (value : val) (validator : val -> bool)
  (expected : string) (name : option string) (options : option options) :
  exists (o : outcome val) (l : list log_entry),
    (List.length l <= 1)%nat
    /\ (forall e, o = Throw e -> l = [])
    /\ (validator value = true -> o = Return value /\ l = [])
    /\ forall w,
         check call value validator expected name options w
         = (o, {| validators := validators w; log := log w ++ l |}).
Proof.
  destruct (validator value) eqn:Hv.
  - exists (Return value), [].
    split; [simpl; lia|]. split; [reflexivity|]. split; [now split|].
    intros w. now rewrite check_valid, world_eta.
  - destruct (truthy (from_option defaultValue VUndefined options)) eqn:Hd.
    + destruct options as [o|]; [|discriminate]. simpl in Hd.
      destruct (warn_decision (warnIf o) value) eqn:Ew.
      * eexists (Return (resolved call (defaultValue o) value)), [_].
        split; [simpl; lia|]. split; [discriminate|]. split; [discriminate|].
        intros w. rewrite check_default, Ew by assumption. reflexivity.
      * exists (Return (resolved call (defaultValue o) value)), [].
        split; [simpl; lia|]. split; [reflexivity|]. split; [discriminate|].
        intros w. now rewrite check_default, Ew, world_eta.
    + exists (Throw (ValidationError (getMessage value expected name))), [].
      split; [simpl; lia|]. split; [reflexivity|]. split; [discriminate|].
      intros w. now rewrite check_no_default, world_eta.
Qed.

(** X3. [checkType] never changes the registry either; it adds at most
    one warning to the log, and none when it throws or answers an
    unknown type name. *)
Theorem checkType_effects call (value type : val) (name : option string)
  (d : val) (warnIf : option (val -> bool)) (w : world) :
  exists (o : outcome val) (l : list log_entry),
    checkType call value type name d warnIf w
    = (o, {| validators := validators w; log := log w ++ l |})
    /\ (List.length l <= 1)%nat
    /\ (forall e, o = Throw e -> l = [])
    /\ (forall t, type = VStr t -> has_property (validators w) t = false ->
        l = []).
Proof.
  assert (forall o : outcome val,
            (o, w) = (o, {| validators := validators w;
                            log := log w ++ [] |})) as Hsame
    by (intros o; now rewrite world_eta).
  assert (forall valid expectedType,
            (forall t, type = VStr t -> has_property (validators w) t = true) ->
            exists o l,
              checkType_finish call value type name d
                (default (fun x => negb (lodash.isNil x)) warnIf) valid
                expectedType w
              = (o, {| validators := validators w; log := log w ++ l |})
              /\ (List.length l <= 1)%nat
              /\ (forall e, o = Throw e -> l = [])
              /\ (forall t, type = VStr t ->
                  has_property (validators w) t = false -> l = []))
    as Hfinish.
  { intros valid expectedType Hin.
    destruct (checkType_finish_effects call value type name d
                (default (fun x => negb (lodash.isNil x)) warnIf) valid
                expectedType) as (o & l & Hlen & Hthrow & Hrun).
    exists o, l. split; [apply Hrun|]. split; [assumption|].
    split; [assumption|]. intros t Ht Hno. rewrite (Hin t Ht) in Hno.
    discriminate. }
  destruct type as [| |b|n|t|c|ob];
    try (apply Hfinish; intros; discriminate).
  - rewrite checkType_string_cases.
    destruct (has_property (validators w) t) eqn:Hin.
    + destruct (get_function (validators w) t) as [validate|].
      * apply Hfinish. now intros t' [= <-].
      * exists (Throw TypeError), [].
        split; [apply Hsame|]. split; [simpl; lia|]. now split.
    + exists (Return (VBool false)), [].
      split; [apply Hsame|]. split; [simpl; lia|]. now split.
  - unfold checkType. run_M.
    destruct (instanceof value (VFun c)) as [valid|e].
    + apply Hfinish. intros; discriminate.
    + exists (Throw e), [].
      split; [apply Hsame|]. split; [simpl; lia|]. now split.
  - unfold checkType.
    destruct (lodash.isString (VObj ob));
      [|apply Hfinish; intros; discriminate].
    run_M. cbn [fst snd].
    destruct (has_property (validators w) (to_string (VObj ob))).
    + destruct (get_function (validators w) (to_string (VObj ob)))
        as [validate|].
      * apply Hfinish. intros; discriminate.
      * exists (Throw TypeError), [].
        split; [apply Hsame|]. split; [simpl; lia|]. now split.
    + exists (Return (VBool false)), [].
      split; [apply Hsame|]. split; [simpl; lia|]. now split.
Qed.

(** *** The registry *)

Lemma setValidator_world (type : string) (validator : validator)
  (name : option string) (w : world) :
  setValidator type validator name w =
  (Return tt,
   {| validators :=
        set_property (validators w) type
          {| entry_name := default type name; entry_function := validator |};
      log := log w |}).
Proof. now destruct name. Qed.

Lemma set_property_twice (r : registry) (type : string)
  (e1 e2 : validator_entry) :
  set_property (set_property r type e1) type e2 = set_property r type e2.
Proof.
  unfold set_property.
  destruct (String.eqb type "__proto__") eqn:Ep; simpl.
  - destruct (bool_decide (own r !! type = None)) eqn:E; simpl.
    + now rewrite E.
    + rewrite lookup_insert_eq. simpl. now rewrite insert_insert_eq.
  - now rewrite insert_insert_eq.
Qed.

Lemma set_property_commute (r : registry) (t1 t2 : string)
  (e1 e2 : validator_entry) :
  t1 <> t2 ->
  set_property (set_property r t1 e1) t2 e2
  = set_property (set_property r t2 e2) t1 e1.
Proof.
  intros Hne. unfold set_property.
  destruct (String.eqb_spec t1 "__proto__") as [->|H1];
    destruct (String.eqb_spec t2 "__proto__") as [->|H2];
    try contradiction; simpl.
  - rewrite lookup_insert_ne by congruence.
    now destruct (bool_decide (own r !! "__proto__" = None)); simpl;
      [|rewrite insert_insert_ne by congruence].
  - rewrite lookup_insert_ne by congruence.
    now destruct (bool_decide (own r !! "__proto__" = None)); simpl;
      [|rewrite insert_insert_ne by congruence].
  - now rewrite insert_insert_ne by congruence.
Qed.

Lemma set_property_other (r : registry) (type type' : string)
  (e : validator_entry) :
  type' <> type ->
  get_entry (set_property r type e) type' = get_entry r type'
  /\ get_function (set_property r type e) type' = get_function r type'
  /\ (type <> "__proto__" ->
      has_property (set_property r type e) type' = has_property r type').
Proof.
  intros Hne. unfold set_property, get_entry, get_function, has_property.
  destruct (String.eqb_spec type "__proto__") as [->|Ht]; simpl.
  - destruct (bool_decide (own r !! "__proto__" = None)); simpl.
    + rewrite (proj2 (String.eqb_neq type' "__proto__")) by assumption.
      split; [reflexivity|]. split; [reflexivity|]. intros H. contradiction.
    + rewrite !lookup_insert_ne by congruence.
      split; [reflexivity|]. split; [reflexivity|]. intros H. contradiction.
  - rewrite !lookup_insert_ne by congruence.
    split; [reflexivity|]. split; reflexivity.
Qed.

(** X1. A type name that the registry object neither stores nor
    inherits is answered with [false]: [checkType] returns [false] for
    every value, throws nothing, logs nothing and leaves the default
    unused. *)
Theorem checkType_unregistered_key call (value : val) (t : string)
  (name : option string) (d : val) (warnIf : option (val -> bool))
  (w : world) :
  own (validators w) !! t = None ->
  t ∉ Object_prototype_keys ->
  parent (validators w) = None \/ (t ∉ ["name"; "function"]) ->
  checkType call value (VStr t) name d warnIf w = (Return (VBool false), w).
Proof.
  intros Hown Hkeys Hparent. apply checkType_absent_key.
  apply has_property_false. auto.
Qed.

(** X4. The last registration under a name wins: registering twice
    under one name leaves the world as the second registration alone
    would. *)
Theorem setValidator_overwrites (type : string) (p1 p2 : validator)
  (n1 n2 : option string) (w : world) :
  snd (setValidator type p2 n2 (snd (setValidator type p1 n1 w)))
  = snd (setValidator type p2 n2 w).
Proof.
  rewrite !setValidator_world. cbn [snd validators log].
  now rewrite set_property_twice.
Qed.

(** X5. Registrations under different names do not interfere: they
    give the same world in either order. *)
Theorem setValidator_commutes (t1 t2 : string) (p1 p2 : validator)
  (n1 n2 : option string) (w : world) :
  t1 <> t2 ->
  snd (setValidator t2 p2 n2 (snd (setValidator t1 p1 n1 w)))
  = snd (setValidator t1 p1 n1 (snd (setValidator t2 p2 n2 w))).
Proof.
  intros Hne. rewrite !setValidator_world. cbn [snd validators log].
  now rewrite (set_property_commute _ t1 t2).
Qed.

(** X6. Registering under a name other than [__proto__] changes nothing
    for any other name: its record is what it was, and [checkType]
    against it gives the same outcome and the same log. *)
Theorem setValidator_other_keys call (type type' : string)
  (validator : validator) (name : option string) (w : world) :
  type <> "__proto__" ->
  type' <> type ->
  get_entry (validators (snd (setValidator type validator name w))) type'
  = get_entry (validators w) type'
  /\ forall (value : val) (vname : option string) (d : val)
            (warnIf : option (val -> bool)),
       fst (checkType call value (VStr type') vname d warnIf
              (snd (setValidator type validator name w)))
       = fst (checkType call value (VStr type') vname d warnIf w)
       /\ log (snd (checkType call value (VStr type') vname d warnIf
                      (snd (setValidator type validator name w))))
          = log (snd (checkType call value (VStr type') vname d warnIf w)).
Proof.
  intros Hproto Hne. rewrite setValidator_world. cbn [snd validators].
  destruct (set_property_other (validators w) type type'
              {| entry_name := default type name;
                 entry_function := validator |} Hne)
    as (Hentry & Hfun & Hin).
  split; [assumption|].
  intros value vname d warnIf. rewrite !checkType_string_cases.
  cbn [validators]. rewrite Hfun, (Hin Hproto).
  destruct (has_property (validators w) type'); [|now split].
  destruct (get_function (validators w) type') as [validate|]; [|now split].
  destruct (checkType_finish_effects call value (VStr type') vname d
              (default (fun x => negb (lodash.isNil x)) warnIf)
              (validate value) type') as (o & l & _ & _ & Hrun).
  rewrite !Hrun. now split.
Qed.

(** X7. The name [__proto__] is no ordinary key. On a registry object
    that has no own [__proto__] property (none ever gets one),
    registering under it stores no entry of its own; it makes the
    registered record the prototype, from where its fields show through:
    [checkType] against "name", answered with [false] before, throws a
    TypeError afterwards. *)
Theorem setValidator_proto_key call (validator : validator)
  (name : option string) (w : world) :
  own (validators w) !! "__proto__" = None ->
  own (validators w) !! "name" = None ->
  parent (validators w) = None ->
  (forall type p n,
     own (validators (snd (setValidator type p n w))) !! "__proto__" = None)
  /\ own (validators (snd (setValidator "__proto__" validator name w)))
     = own (validators w)
  /\ forall (value : val) (vname : option string) (d : val)
            (warnIf : option (val -> bool)),
       checkType call value (VStr "name") vname d warnIf w
       = (Return (VBool false), w)
       /\ fst (checkType call value (VStr "name") vname d warnIf
                 (snd (setValidator "__proto__" validator name w)))
          = Throw TypeError.
Proof.
  intros Hproto Hname Hparent. split; [|split].
  - intros type p n. rewrite setValidator_world. cbn [snd validators].
    unfold set_property.
    destruct (String.eqb_spec type "__proto__") as [->|Ht]; simpl.
    + now rewrite bool_decide_eq_true_2 by assumption.
    + now rewrite lookup_insert_ne by assumption.
  - rewrite setValidator_world. cbn [snd validators].
    unfold set_property. simpl.
    now rewrite bool_decide_eq_true_2 by assumption.
  - intros value vname d warnIf. split.
    + apply checkType_absent_key. apply has_property_false.
      split; [assumption|]. split; [|now left].
      apply (bool_decide_eq_false_1 _). reflexivity.
    + rewrite setValidator_world, checkType_string_cases.
      cbn [snd validators]. unfold set_property. simpl.
      rewrite bool_decide_eq_true_2 by assumption.
      unfold has_property, get_function. simpl. now rewrite Hname.
Qed.

Lemma checkType_unregistered_key_witness :
  own initial_validators !! "nonexistent-key" = None
  /\ ("nonexistent-key" ∉ Object_prototype_keys)
  /\ checkType (call_const VNull) (num 1) (VStr "nonexistent-key") (Some "x")
       (num 0) None initial_world
     = (Return (VBool false), initial_world).
Proof.
  assert ("nonexistent-key" ∉ Object_prototype_keys) as Hkeys
    by (apply (bool_decide_eq_false_1 _); reflexivity).
  split; [reflexivity|]. split; [exact Hkeys|].
  apply (checkType_unregistered_key (call_const VNull) (num 1)
           "nonexistent-key" (Some "x") (num 0) None initial_world eq_refl
           Hkeys).
  now left.
Defined.

Lemma setValidator_commutes_witness :
  "even" <> "number"
  /\ snd (setValidator "number" lodash.isNumber (Some "a number")
            (snd (setValidator "even" even None initial_world)))
     = snd (setValidator "even" even None
              (snd (setValidator "number" lodash.isNumber (Some "a number")
                      initial_world))).
Proof.
  assert ("even" <> "number") as Hne by discriminate.
  split; [exact Hne|].
  apply (setValidator_commutes "even" "number" even lodash.isNumber None
           (Some "a number") initial_world Hne).
Defined.

Lemma setValidator_other_keys_witness :
  "even" <> "__proto__"
  /\ "number" <> "even"
  /\ fst (checkType (call_const VNull) (VStr "bad") (VStr "number") (Some "x")
            VUndefined None (snd (setValidator "even" even None initial_world)))
     = fst (checkType (call_const VNull) (VStr "bad") (VStr "number") (Some "x")
              VUndefined None initial_world).
Proof.
  assert ("even" <> "__proto__") as H1 by discriminate.
  assert ("number" <> "even") as H2 by discriminate.
  split; [exact H1|]. split; [exact H2|].
  destruct (setValidator_other_keys (call_const VNull) "even" "number" even
              None initial_world H1 H2) as [_ Hsame].
  apply (Hsame (VStr "bad") (Some "x") VUndefined None).
Defined.

Lemma setValidator_proto_key_witness :
  own initial_validators !! "__proto__" = None
  /\ own initial_validators !! "name" = None
  /\ parent initial_validators = None
  /\ fst (checkType (call_const VNull) (num 1) (VStr "name") (Some "x")
            VUndefined None initial_world)
     = Return (VBool false)
  /\ fst (checkType (call_const VNull) (num 1) (VStr "name") (Some "x")
            VUndefined None
            (snd (setValidator "__proto__" even None initial_world)))
     = Throw TypeError.
Proof.
  do 3 (split; [reflexivity|]).
  destruct (setValidator_proto_key (call_const VNull) even None initial_world
              eq_refl eq_refl eq_refl) as (_ & _ & Hname).
  destruct (Hname (num 1) (Some "x") VUndefined None) as [Hbefore Hafter].
  split; [now rewrite Hbefore | exact Hafter].
Defined.

(** *** [checkType] beside [check] *)

(** X8. For a registered name, the deprecated [checkType] and [check]
    with the registered predicate, the name as description and the same
    default and [warnIf] give the same outcome and log equally many
    warnings, as long as the default is [undefined] or truthy. *)
Theorem checkType_agrees_with_check call (value : val) (t : string)
  (validate : validator) (name : option string) (d : val)
  (warnIf : option (val -> bool)) (w : world) :
  has_property (validators w) t = true ->
  get_function (validators w) t = Some validate ->
  d = VUndefined \/ truthy d = true ->
  fst (checkType call value (VStr t) name d warnIf w)
  = fst (check call value validate t name
           (Some {| defaultValue := d; warnIf := warnIf |}) w)
  /\ List.length (log (snd (checkType call value (VStr t) name d warnIf w)))
     = List.length
         (log (snd (check call value validate t name
                      (Some {| defaultValue := d; warnIf := warnIf |}) w))).
Proof.
  intros Hin Hget Hd.
  rewrite (checkType_named call value t name d warnIf w validate)
    by assumption.
  destruct (validate value) eqn:Hv.
  - rewrite checkType_finish_valid, check_valid by assumption. now split.
  - rewrite checkType_finish_invalid.
    destruct Hd as [-> | Hd].
    + rewrite check_no_default by (assumption || reflexivity). now split.
    + assert (strict_equal d VUndefined = false) as ->
        by (destruct d; try reflexivity; discriminate).
      rewrite check_default by assumption. simpl.
      replace (default (fun x => negb (lodash.isNil x)) warnIf value)
        with (warn_decision warnIf value) by (now destruct warnIf).
      destruct (warn_decision warnIf value); simpl; [|now split].
      split; [reflexivity|]. now rewrite !length_app.
Qed.

Lemma checkType_agrees_with_check_witness :
  has_property initial_validators "number" = true
  /\ get_function initial_validators "number" = Some lodash.isNumber
  /\ truthy (num 1) = true
  /\ fst (checkType (call_const VNull) (VStr "bad") (VStr "number") (Some "x")
            (num 1) None initial_world)
     = fst (check (call_const VNull) (VStr "bad") lodash.isNumber "number"
              (Some "x") (Some {| defaultValue := num 1; warnIf := None |})
              initial_world).
Proof.
  do 3 (split; [reflexivity|]).
  apply (checkType_agrees_with_check (call_const VNull) (VStr "bad") "number"
           lodash.isNumber (Some "x") (num 1) None initial_world
           eq_refl eq_refl).
  now right.
Defined.

(** *** Classes as types *)

(** X13. A primitive is an instance of no class: against a class,
    [checkType] treats every [undefined], [null], boolean, number and
    string as invalid, so it throws "Expected instance of <name>" with no
    default and hands back the resolved default otherwise. *)
Theorem checkType_primitive_against_class call (value : val) (c : func)
  (name : option string) (d : val) (warnIf : option (val -> bool))
  (w : world) :
  prototype_of value = None ->
  (d = VUndefined ->
   checkType call value (VFun c) name d warnIf w
   = (Throw (ValidationError
               (getMessage value ("instance of " +:+ fn_name c) name)), w))
  /\ (d <> VUndefined ->
      fst (checkType call value (VFun c) name d warnIf w)
      = Return (resolved call d value)).
Proof.
  intros Hprim.
  assert (fails_check (validators w) value (VFun c)) as Hfail.
  { apply fails_class. unfold instanceof. now rewrite Hprim. }
  rewrite (checkType_fails call value (VFun c) name d warnIf w Hfail).
  rewrite checkType_finish_invalid. simpl expected_description.
  destruct (strict_equal d VUndefined) eqn:E.
  - apply strict_equal_undefined in E. subst d. split; [reflexivity|].
    intros H. contradiction.
  - split; [|reflexivity]. intros ->. discriminate.
Qed.


Lemma checkType_primitive_against_class_witness :
  prototype_of (num 1) = None
  /\ checkType (call_const VNull) (num 1) (VFun Foo) (Some "x") VUndefined None
       initial_world
     = (Throw (ValidationError
                 (getMessage (num 1) "instance of Foo" (Some "x"))),
        initial_world).
Proof.
  split; [reflexivity|].
  apply (checkType_primitive_against_class (call_const VNull) (num 1) Foo
           (Some "x") VUndefined None initial_world eq_refl).
  reflexivity.
Defined.


(** *** The initial registry *)

(** One step through the table: the name at its head, or on to the rest. *)
Ltac table_step t k :=
  rewrite lookup_insert;
  destruct (String.eqb_spec t k) as [->|?];
  [rewrite decide_True by reflexivity; reflexivity
  |rewrite decide_False by congruence].

Lemma own_initial (t : string) :
  entry_function <$> own initial_validators !! t = builtin t.
Proof.
  unfold builtin, initial_validators. cbn [own list_to_map foldr curry fst snd].
  table_step t "alphanumeric". table_step t "array". table_step t "boolean".
  table_step t "function". table_step t "number". table_step t "object".
  table_step t "string". now rewrite lookup_empty.
Qed.

(** X15. In the initial state exactly seven names are registered:
    "alphanumeric", "array", "boolean", "function", "number", "object"
    and "string". With no default, [checkType] against one of them
    returns the value when the table's predicate accepts it and throws
    the ValidationError naming the type otherwise; against a name
    inherited from [Object.prototype] it throws a TypeError; against any
    other string it returns [false]. The predicates are lodash's: a boxed
    number passes for "number", and "object" wants a plain object. *)
Theorem checkType_initial_registry call (value : val) (t : string)
  (name : option string) (warnIf : option (val -> bool))
  (l : list log_entry) :
  checkType call value (VStr t) name VUndefined warnIf
    {| validators := initial_validators; log := l |}
  = (match builtin t with
     | Some validate =>
         if validate value then Return value
         else Throw (ValidationError (getMessage value t name))
     | None =>
         if bool_decide (t ∈ Object_prototype_keys) then Throw TypeError
         else Return (VBool false)
     end,
     {| validators := initial_validators; log := l |}).
Proof.
  rewrite checkType_string_cases. cbn [validators].
  pose proof (own_initial t) as Hown.
  unfold has_property, get_function. cbn [parent initial_validators].
  change (own {| own := own initial_validators; parent := None |})
    with (own initial_validators).
  destruct (own initial_validators !! t) as [e|] eqn:E; simpl in Hown;
    rewrite <- Hown.
  - rewrite bool_decide_eq_true_2 by eauto. simpl.
    now destruct (entry_function e value).
  - rewrite bool_decide_eq_false_2 by (intros [? ?]; discriminate). simpl.
    destruct (bool_decide (t ∈ Object_prototype_keys)); [|reflexivity].
    now destruct (String.eqb t "__proto__").
Qed.

(** *** Numbers and their text *)

Lemma shr_1_nonneg (mrs : shr_record) :
  0 <= shr_m mrs -> 0 <= shr_m (shr_1 mrs).
Proof.
  destruct mrs as [m r s]. destruct m as [|p|p]; simpl; try lia;
    destruct p; simpl; lia.
Qed.

Lemma iter_pos_invariant {A} (P : A -> Prop) (f : A -> A) :
  (forall x, P x -> P (f x)) -> forall p x, P x -> P (iter_pos f p x).
Proof. intros Hf. induction p; simpl; auto. Qed.

Lemma shr_fexp_nonneg (m e : Z) (l : location) :
  0 <= m -> 0 <= shr_m (fst (shr_fexp Number.prec Number.emax m e l)).
Proof.
  intros Hm. unfold shr_fexp, shr.
  assert (0 <= shr_m (shr_record_of_loc m l)) as H0
    by (destruct l as [|[]]; exact Hm).
  destruct (fexp Number.prec Number.emax (Zdigits2 m + e) - e) as [|p|p];
    try exact H0.
  cbn [fst].
  apply (iter_pos_invariant (fun mrs => 0 <= shr_m mrs));
    [exact shr_1_nonneg | exact H0].
Qed.

Lemma round_nearest_even_nonneg (m : Z) (l : location) :
  0 <= m -> 0 <= round_nearest_even m l.
Proof.
  intros Hm. destruct l as [|[]]; simpl; try lia. destruct (Z.even m); lia.
Qed.

(** Rounding a magnitude never gives NaN. *)
Lemma binary_round_aux_not_nan (s : bool) (m e : Z) (l : location) :
  0 <= m ->
  Number.isNaN (binary_round_aux Number.prec Number.emax s m e l) = false.
Proof.
  intros Hm. unfold binary_round_aux.
  pose proof (shr_fexp_nonneg m e l Hm) as H1.
  destruct (shr_fexp Number.prec Number.emax m e l) as [mrs' e'].
  simpl in H1.
  pose proof (shr_fexp_nonneg _ e' loc_Exact
                (round_nearest_even_nonneg (shr_m mrs')
                   (loc_of_shr_record mrs') H1)) as H2.
  destruct (shr_fexp Number.prec Number.emax
              (round_nearest_even (shr_m mrs') (loc_of_shr_record mrs')) e'
              loc_Exact) as [mrs'' e''].
  simpl in H2. destruct (shr_m mrs'') as [|p|p]; [reflexivity| |lia].
  now destruct (e'' <=? Number.emax - Number.prec).
Qed.

Lemma of_decimal_not_nan (neg : bool) (m e10 : Z) :
  Number.isNaN (Number.of_decimal neg m e10) = false.
Proof.
  unfold Number.of_decimal. destruct m as [|p|p]; try reflexivity.
  unfold Number.round_decimal. destruct (0 <=? e10) eqn:E.
  - unfold binary_round.
    destruct (shl_align _ _ _) as [mz ez].
    apply binary_round_aux_not_nan. lia.
  - unfold SFdiv_core_binary.
    set (m' := match _ - _ with Z0 => _ | Zpos _ => _ | Zneg _ => _ end).
    assert (0 <= m') as Hm'.
    { subst m'. destruct (_ - _); try lia. apply Z.shiftl_nonneg. lia. }
    assert (0 < 10 ^ (- e10)) as Hpow by (apply Z.pow_pos_nonneg; lia).
    pose proof (Z.div_pos m' (10 ^ (- e10)) Hm' Hpow) as Hq.
    unfold Z.div in Hq.
    destruct (Z.div_eucl m' (10 ^ (- e10))) as [q r].
    now apply binary_round_aux_not_nan.
Qed.

Lemma read_digits_count (s : string) (acc cnt : Z) :
  cnt <= snd (fst (Number.read_digits acc cnt s)).
Proof.
  revert acc cnt. induction s as [|c s IH]; intros acc cnt; simpl; [lia|].
  destruct (Number.is_digit c); simpl; [|lia].
  specialize (IH (10 * acc + Number.digit_val c) (cnt + 1)). lia.
Qed.

Lemma digit_not_whitespace (c : ascii) :
  Number.is_digit c = true -> Number.is_whitespace c = false.
Proof.
  unfold Number.is_digit, Number.is_whitespace. cbv zeta.
  intros H. apply andb_true_iff in H as [H1 H2].
  apply Z.leb_le in H1, H2.
  repeat (apply orb_false_iff; split);
    [apply andb_false_iff; right; lia | lia | lia].
Qed.

(** A string that begins with a digit parses to a number. *)
Lemma parse_unsigned_digit (neg : bool) (s : string) :
  starts_with_digit s = true ->
  Number.isNaN (Number.parse_unsigned neg s) = false.
Proof.
  destruct s as [|c rest]; [discriminate|]. simpl. intros Hd.
  unfold Number.parse_unsigned.
  assert (Number.starts_with "Infinity" (String c rest) = false) as ->.
  { unfold Number.starts_with. cbn [String.prefix].
    destruct (ascii_dec "I" c) as [<-|]; [discriminate | reflexivity]. }
  pose proof (read_digits_count rest (10 * 0 + Number.digit_val c) (0 + 1))
    as Hcount.
  simpl Number.read_digits. rewrite Hd.
  destruct (Number.read_digits _ _ rest) as [[ip ni] r1]. simpl in Hcount.
  assert ((ni =? 0) = false) as Hni by lia.
  destruct r1 as [|c1 r1'].
  - rewrite Hni. apply of_decimal_not_nan.
  - destruct (Ascii.eqb_spec c1 ".") as [->|Hdot].
    + destruct (Number.read_digits ip 0 r1') as [[m nf] r2].
      rewrite Hni. simpl. apply of_decimal_not_nan.
    + assert (match c1 with
              | "."%char =>
                  let '(m, nf, r2) := Number.read_digits ip 0 r1' in
                  if (ni =? 0) && (nf =? 0) then Number.NaN
                  else Number.of_decimal neg m (Number.read_exponent r2 - nf)
              | _ =>
                  if ni =? 0 then Number.NaN
                  else Number.of_decimal neg ip
                         (Number.read_exponent (String c1 r1'))
              end
              = Number.of_decimal neg ip
                  (Number.read_exponent (String c1 r1'))) as ->.
      { rewrite Hni.
        destruct c1 as [[] [] [] [] [] [] [] []]; try reflexivity.
        contradiction. }
      apply of_decimal_not_nan.
Qed.

Lemma parseFloat_digit (s : string) :
  starts_with_digit s = true ->
  Number.isNaN (Number.parseFloat s) = false.
Proof.
  intros Hd. pose proof (parse_unsigned_digit false s Hd) as Hparse.
  destruct s as [|c rest]; [discriminate|]. simpl in Hd.
  unfold Number.parseFloat. cbn [Number.trim_start].
  rewrite (digit_not_whitespace c Hd).
  destruct c as [[] [] [] [] [] [] [] []]; try exact Hparse; discriminate.
Qed.

Lemma parseFloat_minus_digit (s : string) :
  starts_with_digit s = true ->
  Number.isNaN (Number.parseFloat (String "-" s)) = false.
Proof. intros Hd. now apply (parse_unsigned_digit true). Qed.

Lemma append_starts_with_digit (a b : string) :
  starts_with_digit a = true -> starts_with_digit (a +:+ b) = true.
Proof. now destruct a. Qed.

Lemma substring_starts_with_digit (n : nat) (s : string) :
  starts_with_digit s = true -> (0 < n)%nat ->
  starts_with_digit (String.substring 0 n s) = true.
Proof. destruct s, n; simpl; auto; lia. Qed.

Lemma digits_of_starts_with_digit (s : Z) :
  starts_with_digit (Number.digits_of s) = true.
Proof.
  unfold Number.digits_of.
  now destruct (N.to_uint (Z.to_N s)).
Qed.

(** Every finite number is written with a digit in front. *)
Lemma format_starts_with_digit (s q : Z) :
  starts_with_digit (Number.format s q) = true.
Proof.
  unfold Number.format. cbv zeta.
  pose proof (digits_of_starts_with_digit s) as Hd.
  set (ds := Number.digits_of s) in *.
  set (n := Z.of_nat (String.length ds) + q).
  destruct ((Z.of_nat (String.length ds) <=? n) && (n <=? 21));
    [now apply append_starts_with_digit|].
  destruct ((0 <? n) && (n <=? 21)) eqn:E2.
  { apply append_starts_with_digit, substring_starts_with_digit;
      [assumption | lia]. }
  destruct ((-6 <? n) && (n <=? 0)); [reflexivity|].
  destruct (Z.of_nat (String.length ds) =? 1);
    apply append_starts_with_digit; [assumption|].
  apply substring_starts_with_digit; [assumption | lia].
Qed.

(** What a number is written as parses to a number again. *)
Lemma parseFloat_toString_not_nan (x : Number.number) :
  Number.isNaN x = false ->
  Number.isNaN (Number.parseFloat (Number.toString x)) = false.
Proof.
  destruct x as [s|s| |s m e]; intros Hx; try discriminate.
  - reflexivity.
  - now destruct s.
  - unfold Number.toString.
    destruct (Number.shortest _ m e _) as [d q].
    pose proof (format_starts_with_digit d q) as Hf.
    destruct s.
    + now apply parseFloat_minus_digit.
    + now apply parseFloat_digit.
Qed.

(** The first character of what a number is written as. *)
Lemma toString_head (x : Number.number) :
  Number.isNaN x = false ->
  exists c rest,
    Number.toString x = String c rest
    /\ (Number.is_digit c = true \/ c = "-"%char \/ c = "I"%char).
Proof.
  destruct x as [s|s| |s m e]; intros Hx; try discriminate.
  - exists "0"%char, "". auto.
  - destruct s; [exists "-"%char, "Infinity" | exists "I"%char, "nfinity"];
      auto.
  - unfold Number.toString.
    destruct (Number.shortest _ m e _) as [d q].
    pose proof (format_starts_with_digit d q) as Hf.
    destruct s; [exists "-"%char, (Number.format d q); auto|].
    destruct (Number.format d q) as [|c rest]; [discriminate|].
    exists c, rest. auto.
Qed.

(** *** The classifiers *)

(** X16. [isAlphanumeric] accepts every string and every number but NaN
    (the infinities included), rejects [undefined], [null] and the
    booleans, and accepts an object or a function as soon as its text
    begins with a digit, as the text "1,2" of the array [[1, 2]] does. *)
Theorem isAlphanumeric_by_kind :
  (forall s, isAlphanumeric (VStr s) = true)
  /\ (forall n, isAlphanumeric (VNum n) = negb (Number.isNaN n))
  /\ isAlphanumeric VUndefined = false
  /\ isAlphanumeric VNull = false
  /\ (forall b, isAlphanumeric (VBool b) = false)
  /\ (forall v, starts_with_digit (to_string v) = true ->
        isAlphanumeric v = true).
Proof.
  split; [intros s; apply orb_true_r|].
  split.
  { intros n. unfold isAlphanumeric. simpl. rewrite orb_false_r.
    destruct (Number.isNaN n) eqn:E.
    - now destruct n.
    - now rewrite parseFloat_toString_not_nan. }
  split; [reflexivity|]. split; [reflexivity|].
  split; [now intros []|].
  intros v Hd. unfold isAlphanumeric. now rewrite parseFloat_digit.
Qed.

(** An array that holds the numbers 1 and 2. *)
Lemma isAlphanumeric_by_kind_witness :
  starts_with_digit "1,2" = true
  /\ isAlphanumeric
       (VObj {| obj_id := 7; obj_proto := Array_prototype; obj_array := true;
                obj_tag := TagOther; obj_ctor_Object := false;
                obj_string := "1,2" |}) = true
  /\ isAlphanumeric (VNum (Number.Infinity true)) = true.
Proof.
  split; [reflexivity|]. split.
  - apply (proj2 (proj2 (proj2 (proj2 (proj2 isAlphanumeric_by_kind))))).
    reflexivity.
  - now rewrite (proj1 (proj2 isAlphanumeric_by_kind)).
Defined.

(** X17. A string that [parseNumberStrict] accepts is the canonical text
    of the number it yields: the number is no NaN, and the string is not
    empty and begins with a digit, a minus sign or the "I" of
    [Infinity]. So the empty string and every string that begins with
    white space or a plus sign are answered with [null]; and whatever is
    accepted, the number NaN apart, [isAlphanumeric] accepts too. *)
Theorem parseNumberStrict_accepts_canonical_text :
  (forall s n,
     parseNumberStrict (VStr s) = Some n ->
     Number.isNaN n = false /\ s = Number.toString n
     /\ exists c rest,
          s = String c rest
          /\ (Number.is_digit c = true \/ c = "-"%char \/ c = "I"%char))
  /\ parseNumberStrict (VStr "") = None
  /\ (forall c rest,
        Number.is_whitespace c = true \/ c = "+"%char ->
        parseNumberStrict (VStr (String c rest)) = None)
  /\ (forall v n,
        parseNumberStrict v = Some n -> Number.isNaN n = false ->
        isAlphanumeric v = true).
Proof.
  assert (forall s n,
            parseNumberStrict (VStr s) = Some n ->
            Number.isNaN n = false /\ s = Number.toString n) as Hacc.
  { intros s n. unfold parseNumberStrict.
    destruct (Number.isNaN (Number.parseFloat s)) eqn:E; [discriminate|].
    destruct (String.eqb_spec (Number.toString (Number.parseFloat s)) s);
      [|discriminate].
    intros [= <-]. auto. }
  split; [|split; [reflexivity|split]].
  - intros s n H. destruct (Hacc s n H) as [Hnan Hs].
    split; [assumption|]. split; [assumption|].
    rewrite Hs. now apply toString_head.
  - intros c rest Hc.
    destruct (parseNumberStrict (VStr (String c rest))) as [n|] eqn:E;
      [|reflexivity].
    destruct (Hacc _ n E) as [Hnan Hs].
    destruct (toString_head n Hnan) as (c' & rest' & Hhead & Hkind).
    rewrite Hhead in Hs. injection Hs as -> _.
    destruct Hc as [Hw | ->].
    + destruct Hkind as [Hd | [-> | ->]]; try discriminate.
      rewrite (digit_not_whitespace c' Hd) in Hw. discriminate.
    + destruct Hkind as [Hd | [? | ?]]; discriminate.
  - intros v n H Hnan. destruct v; try discriminate.
    + injection H as ->. unfold isAlphanumeric. simpl.
      now rewrite parseFloat_toString_not_nan.
    + apply orb_true_r.
Qed.

(** " 7" and "+7" against "7". *)
Lemma parseNumberStrict_accepts_canonical_text_witness :
  parseNumberStrict (VStr " 7") = None
  /\ parseNumberStrict (VStr "+7") = None
  /\ parseNumberStrict (VStr "7") = Some (Number.of_Z 7).
Proof.
  split; [|split].
  - apply (proj1 (proj2 (proj2 parseNumberStrict_accepts_canonical_text))).
    now left.
  - apply (proj1 (proj2 (proj2 parseNumberStrict_accepts_canonical_text))).
    now right.
  - vm_compute. reflexivity.
Defined.

(** X18. A default given to [check] as a function is always used, also
    when what it returns is falsy: [check] returns the function's result
    for an invalid value, whereas the same result given as a plain
    default makes [check] throw. *)
Theorem check_function_default call (value : val) (validator : val -> bool)
  (expected : string) (name : option string) (f : func)
  (warnIf : option (val -> bool)) (w : world) :
  validator value = false ->
  fst (check call value validator expected name
         (Some {| defaultValue := VFun f; warnIf := warnIf |}) w)
  = Return (call f value)
  /\ (truthy (call f value) = false ->
      check call value validator expected name
        (Some {| defaultValue := call f value; warnIf := warnIf |}) w
      = (Throw (ValidationError (getMessage value expected name)), w)).
Proof.
  intros Hv. split.
  - now rewrite check_default.
  - intros Hfalsy. now rewrite check_no_default.
Qed.

(** A function that returns 0 against the literal 0. *)
Lemma check_function_default_witness :
  lodash.isNumber (VStr "bad") = false
  /\ fst (check (call_const (num 0)) (VStr "bad") lodash.isNumber "number"
            (Some "x") (Some {| defaultValue := VFun arrow; warnIf := None |})
            initial_world)
     = Return (num 0)
  /\ fst (check (call_const (num 0)) (VStr "bad") lodash.isNumber "number"
            (Some "x") (Some {| defaultValue := num 0; warnIf := None |})
            initial_world)
     = Throw (ValidationError "x: Expected number, bad given.").
Proof.
  split; [reflexivity|].
  destruct (check_function_default (call_const (num 0)) (VStr "bad")
              lodash.isNumber "number" (Some "x") arrow None initial_world
              eq_refl) as [Hfun Hplain].
  split; [exact Hfun|].
  change (call_const (num 0) arrow (VStr "bad")) with (num 0) in Hplain.
  now rewrite (Hplain eq_refl).
Defined.
